(** * Kimiollo front end: session lifecycle and feature views

    A shallow embedding of the React front end of the business-proposal
    application: the authentication context (src/contexts/AuthContext.js),
    the five feature views, the route guard and the navigation bar, with
    the properties of the specification stated against it.

    JavaScript values are untyped, so the embedding keeps a small universe of
    JS values with the language's truthiness, string conversion and member
    access.  Stateful code is written in a state-and-exception monad (the
    authentication context) or a trace-and-exception monad (the views), so
    that [try]/[catch]/[finally] and early [return] read as in the source. *)

From Stdlib Require Import ZArith String.
From stdpp Require Import gmap strings list fin_maps pretty.

Open Scope string_scope.
Local Set Warnings "-register-all".

(** ** JavaScript values *)

Module JS.

(** Numbers are restricted to integers and NaN: every number the modelled
    code inspects (an HTTP status, a proposal id, the result of
    [parseInt]) is one of these. *)
Inductive value : Type :=
| VUndefined
| VNull
| VBool (b : bool)
| VNum (z : Z)
| VNaN
| VStr (s : string)
| VArr (elems : list value)
| VObj (fields : list (string * value)).

(** [!!v] *)
Definition truthy (v : value) : bool :=
  match v with
  | VUndefined | VNull | VNaN => false
  | VBool b => b
  | VNum z => negb (z =? 0)%Z
  | VStr s => negb (String.eqb s "")
  | VArr _ | VObj _ => true
  end.

(** [v == null]: null or undefined *)
Definition nullish (v : value) : bool :=
  match v with
  | VUndefined | VNull => true
  | _ => false
  end.

(** [a || b] *)
Definition or_else (a b : value) : value := if truthy a then a else b.

(** [a === b] against a string literal *)
Definition strict_eq_str (v : value) (lit : string) : bool :=
  match v with
  | VStr s => String.eqb s lit
  | _ => false
  end.

(** [a === n] against a number literal *)
Definition strict_eq_num (v : value) (n : Z) : bool :=
  match v with
  | VNum z => (z =? n)%Z
  | _ => false
  end.

(** [a === b] where [b] is a number or NaN (the result of [parseInt]) *)
Definition strict_eq_number (a b : value) : bool :=
  match a, b with
  | VNum x, VNum y => (x =? y)%Z
  | _, _ => false
  end.

Fixpoint assoc (k : string) (fields : list (string * value)) : value :=
  match fields with
  | [] => VUndefined
  | (k', v) :: rest => if String.eqb k k' then v else assoc k rest
  end.

(** [v.k] on a value that is neither null nor undefined: own fields of an
    object, [undefined] on everything else (none of the property names the
    code reads is a built-in property of a primitive or of an array). *)
Definition field (v : value) (k : string) : value :=
  match v with
  | VObj fields => assoc k fields
  | _ => VUndefined
  end.

(** [v?.k] *)
Definition opt_field (v : value) (k : string) : value :=
  if nullish v then VUndefined else field v k.

Definition join_with (sep : string) (parts : list string) : string :=
  match parts with
  | [] => ""
  | p :: ps => fold_left (fun acc q => acc +:+ sep +:+ q) ps p
  end.

(** [String(v)], the conversion a template literal applies. *)
Fixpoint to_string (v : value) : string :=
  match v with
  | VUndefined => "undefined"
  | VNull => "null"
  | VBool true => "true"
  | VBool false => "false"
  | VNum z => pretty z
  | VNaN => "NaN"
  | VStr s => s
  | VArr elems =>
      join_with ","
        (map (fun e => if nullish e then "" else to_string e) elems)
  | VObj _ => "[object Object]"
  end.

(** What a [throw] carries.  An axios rejection has a [response] when the
    server answered outside 2xx and none on a network failure; the other
    errors have no [response] property at all. *)
Record http_response : Type := HttpResponse {
  status : value;
  data : value;
  headers : list (string * string)
}.

Inductive exn : Type :=
| AxiosError (response : option http_response)
| TypeError (msg : string)
| Error (msg : string).

(** [error.response] *)
Definition exn_response (e : exn) : option http_response :=
  match e with
  | AxiosError r => r
  | TypeError _ | Error _ => None
  end.

(** [error.response?.status] *)
Definition exn_status (e : exn) : value :=
  match exn_response e with
  | Some r => status r
  | None => VUndefined
  end.

(** [error.response?.data] *)
Definition exn_data (e : exn) : value :=
  match exn_response e with
  | Some r => data r
  | None => VUndefined
  end.

(** [error.response?.data?.error] *)
Definition exn_data_error (e : exn) : value := opt_field (exn_data e) "error".

(** The promise returned by an axios call, once settled. *)
Inductive outcome : Type :=
| Fulfilled (r : http_response)
| Rejected (e : exn).

Record request : Type := Request {
  method : string;
  url : string;
  body : value;
  authorization : option string
}.

(** The REST backend as the client sees it. *)
Definition backend : Type := request -> outcome.

End JS.

Import JS.

(** [process.env.REACT_APP_API_URL || 'http://localhost:5000/api'] *)
Definition API_BASE_URL (env : option string) : string :=
  match env with
  | Some u => if String.eqb u "" then "http://localhost:5000/api" else u
  | None => "http://localhost:5000/api"
  end.

(** ** The authentication context (src/contexts/AuthContext.js) *)

Module Auth.

(** A cookie as js-cookie stores it: the string form of the value and the
    [expires] attribute in days ([None] for a session cookie). *)
Record cookie : Type := Cookie {
  cookie_value : string;
  cookie_expires : option nat
}.

(** The component state of [AuthProvider] ([user], [token], [loading]),
    the browser's cookie jar and [axios.defaults.headers.common]. *)
Record session : Type := Session {
  user : value;
  token : value;
  loading : bool;
  cookies : gmap string cookie;
  default_headers : gmap string string
}.

(** State after the three [useState] calls of the first render. *)
Definition initial (jar : gmap string cookie) (hdrs : gmap string string)
  : session :=
  {| user := VNull; token := VNull; loading := true;
     cookies := jar; default_headers := hdrs |}.

(** *** State and exception monad *)

Inductive completion (A : Type) : Type :=
| Normal (a : A)
| Throw (e : exn).
Arguments Normal {A} a.
Arguments Throw {A} e.

Definition M (A : Type) : Type := session -> session * completion A.

Definition ret {A} (a : A) : M A := fun s => (s, Normal a).

Definition throw {A} (e : exn) : M A := fun s => (s, Throw e).

Definition bind {A B} (m : M A) (k : A -> M B) : M B :=
  fun s =>
    match m s with
    | (s', Normal a) => k a s'
    | (s', Throw e) => (s', Throw e)
    end.

(** [try { body } catch (error) { handler }]: what [body] did to the state
    before it threw stays done. *)
Definition try_catch {A} (body : M A) (handler : exn -> M A) : M A :=
  fun s =>
    match body s with
    | (s', Normal a) => (s', Normal a)
    | (s', Throw e) => handler e s'
    end.

Definition modify (f : session -> session) : M unit :=
  fun s => (f s, Normal tt).

Definition gets {A} (f : session -> A) : M A := fun s => (s, Normal (f s)).

Declare Scope auth_scope.
Delimit Scope auth_scope with auth.
Notation "'let!' x ':=' m 'in' k" := (bind m (fun x => k))
  (at level 10, x name, m at level 100, k at level 200) : auth_scope.
Notation "'do!' m 'in' k" := (bind m (fun _ => k))
  (at level 10, m at level 100, k at level 200) : auth_scope.
Local Open Scope auth_scope.

(** *** The primitives the context uses *)

(** [Cookies.get(name)]: the stored string, [undefined] when absent *)
Definition Cookies_get (name : string) : M value :=
  gets (fun s =>
          match cookies s !! name with
          | Some c => VStr (cookie_value c)
          | None => VUndefined
          end).

(** [Cookies.set(name, v, { expires: days })] *)
Definition Cookies_set (name : string) (v : value) (days : nat) : M unit :=
  modify (fun s =>
    {| user := user s; token := token s; loading := loading s;
       cookies := <[name := Cookie (to_string v) (Some days)]> (cookies s);
       default_headers := default_headers s |}).

(** [Cookies.remove(name)] *)
Definition Cookies_remove (name : string) : M unit :=
  modify (fun s =>
    {| user := user s; token := token s; loading := loading s;
       cookies := delete name (cookies s);
       default_headers := default_headers s |}).

(** [axios.defaults.headers.common[name] = v] *)
Definition set_default_header (name v : string) : M unit :=
  modify (fun s =>
    {| user := user s; token := token s; loading := loading s;
       cookies := cookies s;
       default_headers := <[name := v]> (default_headers s) |}).

(** [delete axios.defaults.headers.common[name]] *)
Definition delete_default_header (name : string) : M unit :=
  modify (fun s =>
    {| user := user s; token := token s; loading := loading s;
       cookies := cookies s;
       default_headers := delete name (default_headers s) |}).

Definition setUser (v : value) : M unit :=
  modify (fun s =>
    {| user := v; token := token s; loading := loading s;
       cookies := cookies s; default_headers := default_headers s |}).

Definition setToken (v : value) : M unit :=
  modify (fun s =>
    {| user := user s; token := v; loading := loading s;
       cookies := cookies s; default_headers := default_headers s |}).

Definition setLoading (b : bool) : M unit :=
  modify (fun s =>
    {| user := user s; token := token s; loading := b;
       cookies := cookies s; default_headers := default_headers s |}).

(** [await axios.post(url, body)]: the shared client sends its default
    [Authorization] header; a rejected promise is a [throw]. *)
Definition axios_post (api : backend) (url : string) (body : value)
  : M http_response :=
  fun s =>
    match api (Request "POST" url body (default_headers s !! "Authorization")) with
    | Fulfilled r => (s, Normal r)
    | Rejected e => (s, Throw e)
    end.

(** [const { access_token, user: userData } = d]: destructuring null or
    undefined is a TypeError. *)
Definition destructure_auth (d : value) : M (value * value) :=
  if nullish d
  then throw (TypeError "Cannot destructure property 'access_token'")
  else ret (field d "access_token", field d "user").

Section Provider.

Variable env_api_url : option string.
Variable api : backend.

(** The mount effect ([useEffect(..., [])]): cold-start hydration. *)
Definition mount : M unit :=
  let! savedToken := Cookies_get "token" in
  do! (if truthy savedToken
       then do! setToken savedToken in
            set_default_header "Authorization"
              ("Bearer " +:+ to_string savedToken)
       else ret tt) in
  setLoading false.

Definition credentials (email password : value) : value :=
  VObj [("email", email); ("password", password)].

Definition login (email password : value) : M value :=
  try_catch
    (let! response :=
       axios_post api (API_BASE_URL env_api_url +:+ "/login") (credentials email password) in
     let! fields := destructure_auth (data response) in
     let access_token := fst fields in
     let userData := snd fields in
     do! Cookies_set "token" access_token 1 in
     do! set_default_header "Authorization"
           ("Bearer " +:+ to_string access_token) in
     do! setToken access_token in
     do! setUser userData in
     ret (VObj [("success", VBool true); ("user", userData)]))
    (fun error =>
       ret (VObj [("success", VBool false);
                  ("error", or_else (exn_data_error error) (VStr "Login failed"))])).

Definition registration (name email password : value) : value :=
  VObj [("name", name); ("email", email); ("password", password)].

Definition register (name email password : value) : M value :=
  try_catch
    (let! response :=
       axios_post api (API_BASE_URL env_api_url +:+ "/register") (registration name email password) in
     let! fields := destructure_auth (data response) in
     let access_token := fst fields in
     let userData := snd fields in
     do! Cookies_set "token" access_token 1 in
     do! set_default_header "Authorization"
           ("Bearer " +:+ to_string access_token) in
     do! setToken access_token in
     do! setUser userData in
     ret (VObj [("success", VBool true); ("user", userData)]))
    (fun error =>
       ret (VObj [("success", VBool false);
                  ("error", or_else (exn_data_error error)
                              (VStr "Registration failed"))])).

Definition logout : M unit :=
  do! Cookies_remove "token" in
  do! delete_default_header "Authorization" in
  do! setToken VNull in
  setUser VNull.

End Provider.

(** The object handed to [AuthContext.Provider] on a render; the three
    callbacks are the definitions above. *)
Record context_value : Type := ContextValue {
  ctx_user : value;
  ctx_token : value;
  ctx_loading : bool;
  isAuthenticated : bool
}.

Definition provided (s : session) : context_value :=
  {| ctx_user := user s; ctx_token := token s; ctx_loading := loading s;
     isAuthenticated := truthy (token s) |}.

End Auth.

(** ** [useAuth] and the provider tree *)

Module Tree.

(** What encloses a component on the path from the root of the element
    tree down to it, outermost first. *)
Inductive ancestor : Type :=
| Provider (v : Auth.context_value)
| Element (name : string).

(** [useContext(AuthContext)]: the value of the nearest enclosing provider,
    and the default of [createContext()], which is [undefined], when there
    is none. *)
Fixpoint useContext (path : list ancestor) : option Auth.context_value :=
  match path with
  | [] => None
  | Provider v :: inner =>
      match useContext inner with
      | Some v' => Some v'
      | None => Some v
      end
  | Element _ :: inner => useContext inner
  end.

Inductive hook_result : Type :=
| Returns (v : Auth.context_value)
| Throws (e : exn).

(** The context value is an object, so [!context] holds exactly when it is
    [undefined]. *)
Definition useAuth (path : list ancestor) : hook_result :=
  match useContext path with
  | None => Throws (Error "useAuth must be used within an AuthProvider")
  | Some context => Returns context
  end.

Definition inside_provider (path : list ancestor) : bool :=
  existsb (fun a => match a with Provider _ => true | Element _ => false end) path.

End Tree.

(** ** The feature views *)

Module View.

(** What a handler of a view does to the outside, in order. *)
Inductive effect : Type :=
| Log (label : string) (v : value)            (* console.log *)
| ToastError (msg : value)                    (* toast.error *)
| ToastSuccess (msg : string)                 (* toast.success *)
| Logout                                      (* logout() of the context *)
| Navigate (path : string)                    (* navigate(path) *)
| SetState (var : string) (v : value)         (* a useState setter *)
| SetDefaultHeader (name v : string)          (* axios.defaults.headers.common *)
| SetInterval (ms : nat)
| ClearInterval
| SetTimeout (ms : nat) (callback : list effect)
| SaveFile (filename mime : string)           (* the download link, clicked *)
| Spawn (fn : string).                        (* an async call not awaited *)

(** How a block of statements ends: it falls through with a value, it
    executes [return], or it throws. *)
Inductive ctl (A : Type) : Type :=
| Next (a : A)
| Return
| Raise (e : exn).
Arguments Next {A} a.
Arguments Return {A}.
Arguments Raise {A} e.

Definition V (A : Type) : Type := (list effect * ctl A)%type.

Definition next {A} (a : A) : V A := ([], Next a).
Definition return_ {A} : V A := ([], Return).
Definition raise {A} (e : exn) : V A := ([], Raise e).
Definition emit (e : effect) : V unit := ([e], Next tt).

Definition bind {A B} (m : V A) (k : A -> V B) : V B :=
  match m with
  | (t, Next a) => let (t', c) := k a in ((t ++ t')%list, c)
  | (t, Return) => (t, Return)
  | (t, Raise e) => (t, Raise e)
  end.

Definition try_catch {A} (body : V A) (handler : exn -> V A) : V A :=
  match body with
  | (t, Raise e) => let (t', c) := handler e in ((t ++ t')%list, c)
  | other => other
  end.

(** [finally] blocks of the views only call state setters. *)
Definition finally {A} (body : V A) (fin : list effect) : V A :=
  ((fst body ++ fin)%list, snd body).

(** [await f()] of an async function of the same component *)
Definition await {A} (callee : V A) : V unit :=
  match callee with
  | (t, Raise e) => (t, Raise e)
  | (t, _) => (t, Next tt)
  end.

(** The effects of a handler, whatever way it ends. *)
Definition run {A} (m : V A) : list effect := fst m.

Declare Scope view_scope.
Delimit Scope view_scope with view.
Notation "'let!' x ':=' m 'in' k" := (bind m (fun x => k))
  (at level 10, x name, m at level 100, k at level 200) : view_scope.
Notation "'do!' m 'in' k" := (bind m (fun _ => k))
  (at level 10, m at level 100, k at level 200) : view_scope.
Local Open Scope view_scope.

(** [v.k], a TypeError on null and undefined *)
Definition member (v : value) (k : string) : V value :=
  if nullish v
  then raise (TypeError ("Cannot read properties of " +:+ to_string v))
  else next (field v k).

(** [await axios.get(url, { headers: { Authorization: auth } })] *)
Definition axios_get (api : backend) (url auth : string) : V http_response :=
  match api (Request "GET" url VUndefined (Some auth)) with
  | Fulfilled r => next r
  | Rejected e => raise e
  end.

(** [await axios.post(url, body, { headers: { Authorization: auth } })] *)
Definition axios_post (api : backend) (url : string) (body : value)
    (auth : string) : V http_response :=
  match api (Request "POST" url body (Some auth)) with
  | Fulfilled r => next r
  | Rejected e => raise e
  end.

Fixpoint find_by_id (pid : value) (l : list value) : V value :=
  match l with
  | [] => next VUndefined
  | p :: rest =>
      let! id := member p "id" in
      if strict_eq_number id pid then next p else find_by_id pid rest
  end.

(** [arr.find(p => p.id === pid)] *)
Definition array_find_by_id (arr : value) (pid : value) : V value :=
  match arr with
  | VArr l => find_by_id pid l
  | _ => raise (TypeError "find is not a function")
  end.

Fixpoint header (name : string) (hs : list (string * string)) : option string :=
  match hs with
  | [] => None
  | (k, v) :: rest => if String.eqb k name then Some v else header name rest
  end.

(** [s.includes(sub)] *)
Definition includes (s sub : string) : bool :=
  match String.index 0 sub s with
  | Some _ => true
  | None => false
  end.

(** What happens while an upload is in flight. *)
Inductive inflight : Type :=
| Tick                                   (* the 200 ms interval fires *)
| UploadProgress (loaded total : Z).     (* onUploadProgress *)

Definition session_expired : value := VStr "Session expired. Please login again.".

(** The block every view repeats for an expired session. *)
Definition expire_session : V unit :=
  do! emit (ToastError session_expired) in
  do! emit Logout in
  do! emit (Navigate "/login") in
  return_.

Section Handlers.

Variable env_api_url : option string.
Variable api : backend.
(** [token] of [useAuth()], as of the render that created the handler *)
Variable token : value.
(** [parseInt]: a number or NaN *)
Variable parseInt : string -> value.
(** The file name that the regular expression of [downloadProposalPDF]
    captures after [filename=] in a Content-Disposition header, quotes
    removed; [None] when it does not match or captures nothing. *)
Variable disposition_filename : string -> option string.

Definition base : string := API_BASE_URL env_api_url.
Definition bearer : string := "Bearer " +:+ to_string token.

(** The part of both [downloadProposalPDF] functions after the request. *)
Definition save_download (response : http_response) (title : value) : V unit :=
  let contentType := header "content-type" (headers response) in
  let isHTML :=
    match contentType with
    | Some c => negb (String.eqb c "") && includes c "text/html"
    | None => false
    end in
  let mime := if isHTML then "text/html" else "application/pdf" in
  let contentDisposition := header "content-disposition" (headers response) in
  let default :=
    to_string title +:+ "_Business_Proposal." +:+ (if isHTML then "html" else "pdf") in
  let filename :=
    match contentDisposition with
    | Some d =>
        if String.eqb d "" then default
        else match disposition_filename d with
             | Some f => f
             | None => default
             end
    | None => default
    end in
  do! emit (SaveFile filename mime) in
  emit (ToastSuccess "Business proposal downloaded successfully!").

(** *** Dashboard *)

Definition Dashboard_fetchProposals : V unit :=
  finally
    (try_catch
       (if negb (truthy token)
        then do! emit (ToastError (VStr "Authentication required")) in return_
        else
          let! response := axios_get api (base +:+ "/user-proposals") bearer in
          let! proposals := member (data response) "proposals" in
          emit (SetState "proposals" (or_else proposals (VArr []))))
       (fun error =>
          do! emit (Log "Fetch proposals error:" (exn_data error)) in
          if strict_eq_num (exn_status error) 401
          then expire_session
          else emit (ToastError (VStr "Failed to fetch proposals"))))
    [SetState "loading" (VBool false)].

Definition Dashboard_downloadProposalPDF (proposalId proposalTitle : value)
  : V unit :=
  try_catch
    (if negb (truthy token)
     then do! emit (ToastError (VStr "Authentication required")) in return_
     else
       let! response :=
         axios_get api (base +:+ "/download-proposal/" +:+ to_string proposalId)
           bearer in
       save_download response proposalTitle)
    (fun error =>
       do! emit (Log "Download error:" (exn_data error)) in
       if strict_eq_num (exn_status error) 401
       then expire_session
       else emit (ToastError (or_else (exn_data_error error)
                                (VStr "Failed to download proposal")))).

(** *** Upload *)

(** [Math.round((loaded * 100) / total)] for [0 <= loaded] and
    [0 < total]: the integer nearest to the quotient, halves upwards.  The
    code divides in double precision: for [total = 0] its value is NaN or
    Infinity, and for byte counts so large that the quotient is not exact
    it can differ by one; the statements below use the value only at
    [loaded = total], where it is 100 exactly. *)
Definition round_percent (loaded total : Z) : Z :=
  ((2 * (loaded * 100) + total) / (2 * total))%Z.

(** The callbacks that run while [axios.post] is awaited: the 200 ms
    timer of the simulated progress and the transport's
    [onUploadProgress].  [prev] is the current [uploadProgress] and
    [ticking] tells whether the timer is still set; a cleared timer does
    not fire. *)
Fixpoint while_uploading (events : list inflight) (prev : Z) (ticking : bool)
  : list effect :=
  match events with
  | [] => []
  | Tick :: rest =>
      if ticking
      then if (90 <=? prev)%Z
           then ClearInterval :: SetState "uploadProgress" (VNum 90)
                  :: while_uploading rest 90 false
           else SetState "uploadProgress" (VNum (prev + 10))
                  :: while_uploading rest (prev + 10)%Z true
      else while_uploading rest prev ticking
  | UploadProgress loaded total :: rest =>
      let progress := round_percent loaded total in
      SetState "uploadProgress" (VNum progress)
        :: while_uploading rest progress ticking
  end.

(** [events] is what happens between sending the request and its
    settlement.  When the request fails, the [catch] block leaves the timer
    set; its later ticks are not part of the handler's trace. *)
Definition Upload_onDrop (acceptedFiles : list value)
    (default_auth : option string) (events : list inflight) : V unit :=
  let file := nth 0 acceptedFiles VUndefined in
  if negb (truthy file) then return_
  else
    do! emit (SetState "uploading" (VBool true)) in
    do! emit (SetState "uploadProgress" (VNum 0)) in
    do! emit (SetState "uploadedFile" file) in
    try_catch
      (do! emit (SetInterval 200) in
       do! (if negb (truthy token)
            then raise (Error "No authentication token available")
            else next tt) in
       do! emit (Log "Uploading with token:"
                   (VStr (if truthy token then "Token present" else "No token"))) in
       do! emit (Log "Axios default auth:"
                   (match default_auth with
                    | Some a => VStr a
                    | None => VUndefined
                    end)) in
       do! emit (SetDefaultHeader "Authorization" bearer) in
       do! (while_uploading events 0 true, Next tt) in
       let! response :=
         axios_post api (base +:+ "/upload-proposal")
           (VObj [("file", file)]) bearer in
       do! emit ClearInterval in
       do! emit (SetState "uploadProgress" (VNum 100)) in
       do! emit (ToastSuccess "File uploaded successfully!") in
       emit (SetTimeout 1500
               (if nullish (data response) then []
                else [Navigate ("/analyze/" +:+
                        to_string (field (data response) "proposal_id"))])))
      (fun error =>
         do! emit (Log "Upload error:" (exn_data error)) in
         if strict_eq_num (exn_status error) 401
            && strict_eq_str (exn_data_error error) "invalid_token"
         then expire_session
         else
           do! emit (ToastError (or_else (exn_data_error error)
                                   (VStr "Upload failed"))) in
           do! emit (SetState "uploading" (VBool false)) in
           do! emit (SetState "uploadProgress" (VNum 0)) in
           emit (SetState "uploadedFile" VNull)).

(** *** Analysis *)

Definition Analysis_fetchBusinessPlanContent (proposalId : value) : V unit :=
  try_catch
    (if negb (truthy token) then return_
     else
       let! response :=
         axios_get api (base +:+ "/proposal-content/" +:+ to_string proposalId)
           bearer in
       let! plan := member (data response) "business_plan" in
       emit (SetState "businessPlanContent" plan))
    (fun error =>
       emit (Log "Fetch business plan content error:" (exn_data error))).

Definition Analysis_fetchProposalData (id : string) : V unit :=
  finally
    (try_catch
       (if negb (truthy token)
        then
          do! emit (ToastError (VStr "Authentication required")) in
          do! emit (Navigate "/login") in
          return_
        else
          let! response := axios_get api (base +:+ "/user-proposals") bearer in
          let! proposals := member (data response) "proposals" in
          let userProposals := or_else proposals (VArr []) in
          let! currentProposal := array_find_by_id userProposals (parseInt id) in
          if truthy currentProposal
          then
            do! emit (SetState "proposal" currentProposal) in
            do! (if strict_eq_str (field currentProposal "status") "analyzed"
                 then emit (SetState "analysis"
                              (VObj [("score", field currentProposal "score");
                                     ("status", field currentProposal "status")]))
                 else next tt) in
            emit (Spawn "fetchBusinessPlanContent")
          else
            do! emit (ToastError (VStr "Proposal not found")) in
            emit (Navigate "/dashboard"))
       (fun error =>
          do! emit (Log "Fetch proposal data error:" (exn_data error)) in
          if strict_eq_num (exn_status error) 401
          then expire_session
          else
            do! emit (ToastError (VStr "Failed to fetch proposal data")) in
            emit (Navigate "/dashboard")))
    [SetState "loading" (VBool false)].

Definition Analysis_analyzeProposal (id : string) : V unit :=
  do! emit (SetState "analyzing" (VBool true)) in
  finally
    (try_catch
       (if negb (truthy token)
        then do! emit (ToastError (VStr "Authentication required")) in return_
        else
          let! response :=
            axios_post api (base +:+ "/analyze-proposal/" +:+ id) (VObj [])
              bearer in
          let! analysis := member (data response) "analysis" in
          do! emit (SetState "analysis" analysis) in
          do! emit (ToastSuccess "Proposal analyzed successfully!") in
          emit (Spawn "fetchProposalData"))
       (fun error =>
          if strict_eq_num (exn_status error) 401
          then expire_session
          else emit (ToastError (or_else (exn_data_error error)
                                   (VStr "Failed to analyze proposal")))))
    [SetState "analyzing" (VBool false)].

Definition Analysis_downloadProposalPDF (id : string) (proposal : value)
  : V unit :=
  try_catch
    (if negb (truthy token)
     then do! emit (ToastError (VStr "Authentication required")) in return_
     else
       let! response :=
         axios_get api (base +:+ "/download-proposal/" +:+ id) bearer in
       let! title := member proposal "title" in
       save_download response title)
    (fun error =>
       do! emit (Log "Download error:" (exn_data error)) in
       if strict_eq_num (exn_status error) 401
       then expire_session
       else emit (ToastError (or_else (exn_data_error error)
                                (VStr "Failed to download proposal")))).

(** *** Funding *)

Definition Funding_fetchProposalData (id : string) : V unit :=
  try_catch
    (if negb (truthy token) then return_
     else
       let! response := axios_get api (base +:+ "/user-proposals") bearer in
       let! proposals := member (data response) "proposals" in
       let! proposal := array_find_by_id proposals (parseInt id) in
       if truthy proposal
       then emit (SetState "proposalData" proposal)
       else next tt)
    (fun error => emit (Log "Fetch proposal data error:" (exn_data error))).

Definition Funding_fetchRecommendations (id : string) : V unit :=
  finally
    (try_catch
       (if negb (truthy token)
        then
          do! emit (ToastError (VStr "Authentication required")) in
          do! emit (Navigate "/login") in
          return_
        else
          let! response :=
            axios_get api (base +:+ "/funding-recommendations/" +:+ id) bearer in
          let! recommendations := member (data response) "recommendations" in
          do! emit (SetState "recommendations"
                      (or_else recommendations (VArr []))) in
          await (Funding_fetchProposalData id))
       (fun error =>
          do! emit (Log "Fetch recommendations error:" (exn_data error)) in
          if strict_eq_num (exn_status error) 401
          then expire_session
          else emit (ToastError
                       (or_else (exn_data_error error)
                          (VStr "Failed to fetch funding recommendations")))))
    [SetState "loading" (VBool false)].

Definition Funding_searchFundersRealtime (id : string) : V unit :=
  do! emit (SetState "searching" (VBool true)) in
  finally
    (try_catch
       (if negb (truthy token)
        then
          do! emit (ToastError (VStr "Authentication required")) in
          do! emit (Navigate "/login") in
          return_
        else
          let! response :=
            axios_post api (base +:+ "/search-funders")
              (VObj [("proposal_id", parseInt id)]) bearer in
          let! funders := member (data response) "funders" in
          do! emit (SetState "searchResults" (or_else funders (VArr []))) in
          emit (ToastSuccess
                  ("Found " +:+ to_string (field (data response) "total_found")
                   +:+ " additional funding opportunities!")))
       (fun error =>
          do! emit (Log "Real-time search error:" (exn_data error)) in
          if strict_eq_num (exn_status error) 401
          then expire_session
          else emit (ToastError (or_else (exn_data_error error)
                                   (VStr "Failed to search for funders")))))
    [SetState "searching" (VBool false)].

(** *** Generator *)

Definition Generator_handleSubmit (formData : value) : V unit :=
  do! emit (SetState "loading" (VBool true)) in
  finally
    (try_catch
       (if negb (truthy token)
        then do! emit (ToastError (VStr "Authentication required")) in return_
        else
          let! response :=
            axios_post api (base +:+ "/generate-business-plan") formData
              bearer in
          do! emit (ToastSuccess "Business plan generated successfully!") in
          let! proposal_id := member (data response) "proposal_id" in
          emit (Navigate ("/analyze/" +:+ to_string proposal_id)))
       (fun error =>
          do! emit (Log "Generate business plan error:" (exn_data error)) in
          if strict_eq_num (exn_status error) 401
          then expire_session
          else emit (ToastError (or_else (exn_data_error error)
                                   (VStr "Failed to generate business plan")))))
    [SetState "loading" (VBool false)].

End Handlers.

(** *** The authenticated calls of the five views *)

Inductive view : Type := Dashboard | Upload | Analysis | Funding | Generator.

Inductive call : Type :=
| DashboardFetchProposals
| DashboardDownloadProposalPDF
| UploadOnDrop
| AnalysisFetchProposalData
| AnalysisFetchBusinessPlanContent
| AnalysisAnalyzeProposal
| AnalysisDownloadProposalPDF
| FundingFetchRecommendations
| FundingFetchProposalData
| FundingSearchFundersRealtime
| GeneratorHandleSubmit.

Definition view_of (c : call) : view :=
  match c with
  | DashboardFetchProposals | DashboardDownloadProposalPDF => Dashboard
  | UploadOnDrop => Upload
  | AnalysisFetchProposalData | AnalysisFetchBusinessPlanContent
  | AnalysisAnalyzeProposal | AnalysisDownloadProposalPDF => Analysis
  | FundingFetchRecommendations | FundingFetchProposalData
  | FundingSearchFundersRealtime => Funding
  | GeneratorHandleSubmit => Generator
  end.

(** Everything a handler reads besides the token: route parameter,
    arguments, component state, and what happens during an upload. *)
Record inputs : Type := Inputs {
  in_id : string;
  in_proposalId : value;
  in_proposalTitle : value;
  in_proposal : value;
  in_formData : value;
  in_acceptedFiles : list value;
  in_default_auth : option string;
  in_events : list inflight
}.

Section Calls.

Variable env_api_url : option string.
Variable api : backend.
Variable token : value.
Variable parseInt : string -> value.
Variable disposition_filename : string -> option string.

Definition handler (c : call) (i : inputs) : V unit :=
  match c with
  | DashboardFetchProposals =>
      Dashboard_fetchProposals env_api_url api token
  | DashboardDownloadProposalPDF =>
      Dashboard_downloadProposalPDF env_api_url api token disposition_filename
        (in_proposalId i) (in_proposalTitle i)
  | UploadOnDrop =>
      Upload_onDrop env_api_url api token
        (in_acceptedFiles i) (in_default_auth i) (in_events i)
  | AnalysisFetchProposalData =>
      Analysis_fetchProposalData env_api_url api token parseInt (in_id i)
  | AnalysisFetchBusinessPlanContent =>
      Analysis_fetchBusinessPlanContent env_api_url api token
        (parseInt (in_id i))
  | AnalysisAnalyzeProposal =>
      Analysis_analyzeProposal env_api_url api token (in_id i)
  | AnalysisDownloadProposalPDF =>
      Analysis_downloadProposalPDF env_api_url api token disposition_filename
        (in_id i) (in_proposal i)
  | FundingFetchRecommendations =>
      Funding_fetchRecommendations env_api_url api token parseInt (in_id i)
  | FundingFetchProposalData =>
      Funding_fetchProposalData env_api_url api token parseInt (in_id i)
  | FundingSearchFundersRealtime =>
      Funding_searchFundersRealtime env_api_url api token parseInt (in_id i)
  | GeneratorHandleSubmit =>
      Generator_handleSubmit env_api_url api token (in_formData i)
  end.

(** The request the handler sends first. *)
Definition request_of (c : call) (i : inputs) : request :=
  let base := base env_api_url in
  let auth := Some (bearer token) in
  match c with
  | DashboardFetchProposals | AnalysisFetchProposalData
  | FundingFetchProposalData =>
      Request "GET" (base +:+ "/user-proposals") VUndefined auth
  | DashboardDownloadProposalPDF =>
      Request "GET"
        (base +:+ "/download-proposal/" +:+ to_string (in_proposalId i))
        VUndefined auth
  | UploadOnDrop =>
      Request "POST" (base +:+ "/upload-proposal")
        (VObj [("file", nth 0 (in_acceptedFiles i) VUndefined)]) auth
  | AnalysisFetchBusinessPlanContent =>
      Request "GET"
        (base +:+ "/proposal-content/" +:+ to_string (parseInt (in_id i)))
        VUndefined auth
  | AnalysisAnalyzeProposal =>
      Request "POST" (base +:+ "/analyze-proposal/" +:+ in_id i) (VObj []) auth
  | AnalysisDownloadProposalPDF =>
      Request "GET" (base +:+ "/download-proposal/" +:+ in_id i) VUndefined auth
  | FundingFetchRecommendations =>
      Request "GET" (base +:+ "/funding-recommendations/" +:+ in_id i)
        VUndefined auth
  | FundingSearchFundersRealtime =>
      Request "POST" (base +:+ "/search-funders")
        (VObj [("proposal_id", parseInt (in_id i))]) auth
  | GeneratorHandleSubmit =>
      Request "POST" (base +:+ "/generate-business-plan") (in_formData i) auth
  end.

(** The handler gets as far as sending its request. *)
Definition issues (c : call) (i : inputs) : bool :=
  match c with
  | UploadOnDrop =>
      truthy (nth 0 (in_acceptedFiles i) VUndefined) && truthy token
  | _ => truthy token
  end.

End Calls.

(** The condition under which the [catch] block of a call runs
    [expire_session], read off its source: the status test of the
    handlers, the narrower test of the upload, and no test at all in the
    two fetches whose [catch] only logs. *)
Definition expires (c : call) (r : http_response) : bool :=
  match c with
  | UploadOnDrop =>
      strict_eq_num (status r) 401
      && strict_eq_str (opt_field (data r) "error") "invalid_token"
  | AnalysisFetchBusinessPlanContent | FundingFetchProposalData => false
  | _ => strict_eq_num (status r) 401
  end.

(** What the user can see of a trace: notifications, logout, navigation
    (immediate or deferred). *)
Definition observable (e : effect) : bool :=
  match e with
  | ToastError _ | ToastSuccess _ | Logout | Navigate _ | SetTimeout _ _ => true
  | _ => false
  end.

Definition observed (t : list effect) : list effect := List.filter observable t.

Definition expiry_sequence : list effect :=
  [ToastError session_expired; Logout; Navigate "/login"].

(** The values assigned to [uploadProgress], in order. *)
Fixpoint progress_values (t : list effect) : list Z :=
  match t with
  | [] => []
  | SetState var v :: rest =>
      if String.eqb var "uploadProgress"
      then match v with
           | VNum z => z :: progress_values rest
           | _ => progress_values rest
           end
      else progress_values rest
  | _ :: rest => progress_values rest
  end.

Fixpoint non_decreasing (l : list Z) : bool :=
  match l with
  | x :: ((y :: _) as rest) => (x <=? y)%Z && non_decreasing rest
  | _ => true
  end.

(** *** The proposal cards of the Dashboard *)

Definition getStatusColor (status : value) : string :=
  if strict_eq_str status "completed" then "success"
  else if strict_eq_str status "analyzed" then "info"
  else if strict_eq_str status "processing" then "warning"
  else "default".

(** One card of the grid with its three actions.  The score and date
    lines, which are formatted text only, are left out. *)
Record card : Type := Card {
  card_key : value;
  card_title : value;
  type_chip : value;
  status_chip : value;
  status_color : string;
  view_details_target : string;
  funding_target : string;
  funding_disabled : bool;
  download_disabled : bool
}.

(** The body of [proposals.map((proposal) => ...)]: what the JSX
    expression evaluates to.  Reading a property of a null or undefined
    element throws.  What React does with the card afterwards (it refuses a
    plain object as a child, so as title, type or status) is not part of
    this function: a card here is necessary for the grid to appear, not
    sufficient. *)
Definition render_card (proposal : value) : option card :=
  if nullish proposal then None
  else
    let status := field proposal "status" in
    Some {| card_key := field proposal "id";
            card_title := field proposal "title";
            type_chip := field proposal "type";
            status_chip := status;
            status_color := getStatusColor status;
            view_details_target := "/analyze/" +:+ to_string (field proposal "id");
            funding_target := "/funding/" +:+ to_string (field proposal "id");
            funding_disabled :=
              negb (strict_eq_str status "analyzed")
              && negb (strict_eq_str status "completed");
            download_disabled := negb (truthy proposal) |}.

Inductive dashboard_body : Type :=
| LoadingMessage
| NoProposalsYet
| Cards (cs : list card).

(** The conditional at the centre of the Dashboard's JSX; [None] when
    rendering throws. *)
Definition Dashboard_render (loading : bool) (proposals : value)
  : option dashboard_body :=
  if loading then Some LoadingMessage
  else match proposals with
       | VArr [] => Some NoProposalsYet
       | VArr l => Cards <$> mapM render_card l
       | _ =>
           (* [proposals.length === 0], else [proposals.map] is not a
              function *)
           if strict_eq_num (field proposals "length") 0
           then Some NoProposalsYet
           else None
       end.

End View.

(** ** Reachable session states *)

Module Lifecycle.

Import Auth.

(** One operation of the authentication context.  [ok] restricts the
    backends that answer [login] and [register]. *)
Inductive step (ok : backend -> Prop) : session -> session -> Prop :=
| step_mount s :
    step ok s (fst (mount s))
| step_login env api email password s :
    ok api ->
    step ok s (fst (login env api email password s))
| step_register env api name email password s :
    ok api ->
    step ok s (fst (register env api name email password s))
| step_logout s :
    step ok s (fst (logout s)).

Inductive reachable (ok : backend -> Prop) : session -> Prop :=
| reach_initial jar hdrs :
    reachable ok (initial jar hdrs)
| reach_step s s' :
    reachable ok s -> step ok s s' -> reachable ok s'.

Definition any_backend : backend -> Prop := fun _ => True.

(** The success bodies of the backend carry a non-null [access_token]. *)
Definition sends_token (api : backend) : Prop :=
  forall req r,
    api req = Fulfilled r ->
    nullish (data r) = false ->
    nullish (field (data r) "access_token") = false.

(** The success bodies of the backend carry no [access_token] that is
    falsy without being null or undefined (the empty string, 0, false,
    NaN). *)
Definition sends_no_falsy_token (api : backend) : Prop :=
  forall req r,
    api req = Fulfilled r ->
    nullish (data r) = false ->
    let t := field (data r) "access_token" in
    truthy t = true \/ nullish t = true.

(** [user] is non-null only if [token] is non-null. *)
Definition user_only_with_token (s : session) : Prop :=
  nullish (user s) = false -> nullish (token s) = false.

(** The token is either absent or truthy. *)
Definition token_absent_or_truthy (s : session) : Prop :=
  truthy (token s) = true \/ nullish (token s) = true.



(** The state [login] and [register] leave behind on a success body. *)
Definition signed_in_with (d : value) (s : session) : session :=
  {| user := field d "user";
     token := field d "access_token";
     loading := loading s;
     cookies :=
       <["token" := Cookie (to_string (field d "access_token")) (Some 1)]> (cookies s);
     default_headers :=
       <["Authorization" := "Bearer " +:+ to_string (field d "access_token")]>
         (default_headers s) |}.

Definition success_result (d : value) : value :=
  VObj [("success", VBool true); ("user", field d "user")].

Definition failure_result (fallback : string) (e : exn) : value :=
  VObj [("success", VBool false);
        ("error", or_else (exn_data_error e) (VStr fallback))].

Definition login_request (env : option string) (email password : value)
    (s : session) : request :=
  Request "POST" (API_BASE_URL env +:+ "/login") (credentials email password)
    (default_headers s !! "Authorization").

Definition register_request (env : option string)
    (name email password : value) (s : session) : request :=
  Request "POST" (API_BASE_URL env +:+ "/register")
    (registration name email password) (default_headers s !! "Authorization").

End Lifecycle.

(** ** Concrete backends, states and inputs used below *)

Module Sample.

Import Auth.

Definition alice : value :=
  VObj [("id", VNum 1); ("name", VStr "Alice"); ("email", VStr "alice@example.com")].

Definition reply (status : Z) (body : value) : http_response :=
  HttpResponse (VNum status) body [].

(** A backend that accepts and returns a token and a user summary. *)
Definition accepting : backend :=
  fun _ => Fulfilled (reply 200 (VObj [("access_token", VStr "jwt-1"); ("user", alice)])).

(** A backend that rejects the credentials. *)
Definition rejecting : backend :=
  fun _ => Rejected (AxiosError (Some (reply 401 (VObj [("error", VStr "Invalid credentials")])))).

(** A backend that answers 200 with a user but a null [access_token]. *)
Definition tokenless : backend :=
  fun _ => Fulfilled (reply 200 (VObj [("access_token", VNull); ("user", alice)])).

(** What the client gets when something in front of the backend (a tunnel's
    interstitial page, a misconfigured proxy) answers 200 with an HTML
    page. *)
Definition interstitial : backend :=
  fun _ => Fulfilled (reply 200 (VStr "<!DOCTYPE html><html><body>You are about to visit</body></html>")).

(** A backend that answers 200 with an empty [access_token]. *)
Definition empty_token : backend :=
  fun _ => Fulfilled (reply 200 (VObj [("access_token", VStr ""); ("user", alice)])).

(** A backend whose JWT layer answers 401 in its own words. *)
Definition expired : backend :=
  fun _ => Rejected (AxiosError (Some (reply 401 (VObj [("msg", VStr "Token has expired")])))).

(** A backend that answers 401 with the error the Upload looks for. *)
Definition invalid_token : backend :=
  fun _ => Rejected (AxiosError (Some (reply 401 (VObj [("error", VStr "invalid_token")])))).

Definition fresh : session := initial ∅ ∅.

(** The state after the mount effect on a browser without cookies. *)
Definition mounted : session := fst (mount fresh).

Definition signed_in : session :=
  {| user := alice; token := VStr "jwt-0"; loading := false;
     cookies := {[ "token" := Cookie "jwt-0" (Some 1) ]};
     default_headers := {[ "Authorization" := "Bearer jwt-0" ]} |}.

Definition parse_seven : string -> value := fun _ => VNum 7.
Definition no_filename : string -> option string := fun _ => None.

Definition a_file : value := VObj [("name", VStr "plan.pdf")].

Definition some_inputs : View.inputs :=
  {| View.in_id := "7";
     View.in_proposalId := VNum 7;
     View.in_proposalTitle := VStr "Plan";
     View.in_proposal := VObj [("id", VNum 7); ("title", VStr "Plan")];
     View.in_formData := VObj [("industry", VStr "Retail")];
     View.in_acceptedFiles := [a_file];
     View.in_default_auth := Some "Bearer jwt-0";
     View.in_events := [View.Tick; View.Tick] |}.

(** The whole body is reported sent, then the timer fires while the
    server is still processing the document. *)
Definition fast_upload : list View.inflight :=
  [View.UploadProgress 100 100; View.Tick].

Definition stored : backend :=
  fun _ => Fulfilled (reply 200 (VObj [("proposal_id", VNum 7)])).

Definition proposal_with (id : Z) (status : string) : value :=
  VObj [("id", VNum id); ("title", VStr "Plan"); ("type", VStr "generated");
        ("status", VStr status)].

Definition app_path (v : context_value) : list Tree.ancestor :=
  [Tree.Element "ThemeProvider"; Tree.Provider v; Tree.Element "Router";
   Tree.Element "Routes"; Tree.Element "ProtectedRoute"].

End Sample.

(** ** The route guard and the navigation bar (src/App.js, Navbar.js) *)

Module Shell.

Import View.

Inductive rendered : Type :=
| Children
| Redirect (to : string).

(** [ProtectedRoute], given the value that [useAuth()] returned *)
Definition ProtectedRoute (context : Auth.context_value) : rendered :=
  if truthy (Auth.ctx_token context) then Children else Redirect "/login".

Record nav_button : Type := NavButton {
  nav_label : string;
  nav_path : string;
  nav_highlighted : bool
}.

Inductive navbar : Type :=
| SignedIn (items : list nav_button) (menu_open : bool) (user_label : value)
| Guest (buttons : list (string * string)).

Definition navigationItems : list (string * string) :=
  [("Dashboard", "/dashboard");
   ("Generate Plan", "/generate-plan");
   ("Upload Proposal", "/upload-proposal")].

(** What the [Navbar] shows besides its title, for the context value, the
    current [location.pathname] and the menu anchor. *)
Definition Navbar (context : Auth.context_value) (pathname : string)
    (anchorEl : value) : navbar :=
  if Auth.isAuthenticated context
  then SignedIn
         (map (fun item => NavButton (fst item) (snd item)
                             (String.eqb pathname (snd item)))
            navigationItems)
         (truthy anchorEl)
         (or_else (opt_field (Auth.ctx_user context) "name") (VStr "User"))
  else Guest [("Login", "/login"); ("Register", "/register")].

Definition Navbar_handleLogout : V unit :=
  bind (emit Logout) (fun _ =>
  bind (emit (SetState "anchorEl" VNull)) (fun _ =>
  emit (Navigate "/login"))).

(** The bar's [anchorEl] after the setters of a trace have run; the account
    menu is open when it is truthy ([open={Boolean(anchorEl)}]). *)
Fixpoint anchor_after (t : list effect) (anchorEl : value) : value :=
  match t with
  | [] => anchorEl
  | SetState var v :: rest =>
      anchor_after rest (if String.eqb var "anchorEl" then v else anchorEl)
  | _ :: rest => anchor_after rest anchorEl
  end.

(** What a trace of a component does to the session: [logout()] runs the
    context's function, a write to the default headers of the shared client
    lands there; everything else is local to the component. *)
Fixpoint session_after (t : list effect) (s : Auth.session) : Auth.session :=
  match t with
  | [] => s
  | Logout :: rest => session_after rest (fst (Auth.logout s))
  | SetDefaultHeader name v :: rest =>
      session_after rest (fst (Auth.set_default_header name v s))
  | _ :: rest => session_after rest s
  end.

(** The page is loaded again: component state starts over, the cookie jar
    is what the browser kept, the shared client has its initial headers. *)
Definition reload (hdrs : gmap string string) (s : Auth.session) : Auth.session :=
  fst (Auth.mount (Auth.initial (Auth.cookies s) hdrs)).

End Shell.

(** ** The steps of the plan generator (BusinessPlanGenerator.js) *)

Module Wizard.

Definition steps : list string :=
  ["Business Overview"; "Market Information"; "Financial Requirements"].

Definition businessTypes : list string :=
  ["Sole Proprietorship"; "Partnership"; "Corporation"; "Startup";
   "Small Business"; "Non-Profit"].

Definition industries : list string :=
  ["Technology"; "Manufacturing"; "Healthcare"; "Education"; "Agriculture";
   "Retail"; "Financial Services"; "Construction"; "Consulting"; "Other"].

Record state : Type := State {
  activeStep : Z;
  loading : bool;
  formData : list (string * value)
}.

Definition initial : state :=
  {| activeStep := 0;
     loading := false;
     formData := [("business_type", VStr ""); ("industry", VStr "");
                  ("target_market", VStr ""); ("funding_requirements", VStr "");
                  ("business_description", VStr "")] |}.

(** [{...fields, [name]: v}]: an existing key keeps its place *)
Fixpoint spread_set (name : string) (v : value) (fields : list (string * value))
  : list (string * value) :=
  match fields with
  | [] => [(name, v)]
  | (k, x) :: rest =>
      if String.eqb name k then (k, v) :: rest
      else (k, x) :: spread_set name v rest
  end.

Definition handleChange (name : string) (v : value) (st : state) : state :=
  {| activeStep := activeStep st; loading := loading st;
     formData := spread_set name v (formData st) |}.

Definition handleNext (st : state) : state :=
  {| activeStep := activeStep st + 1; loading := loading st;
     formData := formData st |}.

Definition handleBack (st : state) : state :=
  {| activeStep := activeStep st - 1; loading := loading st;
     formData := formData st |}.

Definition setLoading (b : bool) (st : state) : state :=
  {| activeStep := activeStep st; loading := b; formData := formData st |}.

(** [a && b] *)
Definition and_then (a b : value) : value := if truthy a then b else a.

Definition isStepValid (st : state) : value :=
  let f := formData st in
  match activeStep st with
  | 0%Z => and_then (and_then (assoc "business_type" f) (assoc "industry" f))
             (assoc "business_description" f)
  | 1%Z => and_then (assoc "target_market" f) (assoc "funding_requirements" f)
  | 2%Z => VBool true
  | _ => VBool false
  end.

(** [activeStep === steps.length - 1] *)
Definition on_last_step (st : state) : bool :=
  (activeStep st =? Z.of_nat (length steps) - 1)%Z.

Definition back_disabled (st : state) : bool := (activeStep st =? 0)%Z.

Definition next_disabled (st : state) : bool := negb (truthy (isStepValid st)).

Definition submit_disabled (st : state) : bool :=
  negb (truthy (isStepValid st)) || loading st.

(** The inputs that [getStepContent] renders on a step, and what their
    [onChange] can deliver: a select offers its menu items, a text field
    any string. *)
Definition input_offers (step : Z) (name v : string) : bool :=
  match step with
  | 0%Z =>
      (String.eqb name "business_type" && existsb (String.eqb v) businessTypes)
      || (String.eqb name "industry" && existsb (String.eqb v) industries)
      || String.eqb name "business_description"
  | 1%Z =>
      String.eqb name "target_market" || String.eqb name "funding_requirements"
  | _ => false
  end.

(** What the user can do to the form. *)
Inductive event : Type :=
| Change (name v : string)     (* an input's onChange *)
| ClickBack
| ClickNext
| ClickSubmit                  (* handleSubmit starts: setLoading(true) *)
| SubmitSettled.               (* its finally block: setLoading(false) *)

(** The state after an event; [None] when the control is not rendered or
    is disabled. *)
Definition fire (ev : event) (st : state) : option state :=
  match ev with
  | Change name v =>
      if input_offers (activeStep st) name v
      then Some (handleChange name (VStr v) st)
      else None
  | ClickBack =>
      if back_disabled st then None else Some (handleBack st)
  | ClickNext =>
      if on_last_step st || next_disabled st then None
      else Some (handleNext st)
  | ClickSubmit =>
      if on_last_step st && negb (submit_disabled st)
      then Some (setLoading true st)
      else None
  | SubmitSettled =>
      if loading st then Some (setLoading false st) else None
  end.

Fixpoint fire_all (evs : list event) (st : state) : option state :=
  match evs with
  | [] => Some st
  | ev :: rest =>
      match fire ev st with
      | Some st' => fire_all rest st'
      | None => None
      end
  end.

(** What holds of the form along the way: it has its five string fields,
    the selects hold nothing but offered items, and the steps before the
    current one are filled in. *)
Definition well_formed (st : state) : Prop :=
  exists a b c d e,
    formData st = [("business_type", VStr a); ("industry", VStr b);
                   ("target_market", VStr c); ("funding_requirements", VStr d);
                   ("business_description", VStr e)]
    /\ (0 <= activeStep st <= 2)%Z
    /\ (a = "" \/ In a businessTypes)
    /\ (b = "" \/ In b industries)
    /\ ((1 <= activeStep st)%Z -> a <> "" /\ b <> "" /\ e <> "")
    /\ ((2 <= activeStep st)%Z -> c <> "" /\ d <> "").

(** Every field of the form is a non-empty string. *)
Definition complete (f : list (string * value)) : Prop :=
  forall name,
    In name ["business_type"; "industry"; "target_market";
             "funding_requirements"; "business_description"] ->
    exists v, assoc name f = VStr v /\ v <> "".

(** [handleSubmit] is a closure of the component: the [formData] that it
    posts is the component's state at the click. *)
Definition handleSubmit (env_api_url : option string) (api : backend)
    (token : value) (st : state) : View.V unit :=
  View.Generator_handleSubmit env_api_url api token (VObj (formData st)).

End Wizard.

(** ** The panel of the upload view (ProposalUpload.js) *)

Module UploadView.

Import View.

Record state : Type := State {
  uploading : value;
  uploadProgress : value;
  uploadedFile : value
}.

Definition initial : state :=
  {| uploading := VBool false; uploadProgress := VNum 0; uploadedFile := VNull |}.





End UploadView.

(** ** The actions of the analysis page (ProposalAnalysis.js) *)

Module AnalysisPage.

Record actions : Type := Actions {
  analyze_shown : bool;
  analyze_disabled : bool;
  funding_shown : bool;
  download_disabled : bool
}.

Inductive page : Type :=
| LoadingProposal
| ProposalNotFound
| Page (a : actions).

Definition render (loading : bool) (proposal : value) (analyzing : bool) : page :=
  if loading then LoadingProposal
  else if negb (truthy proposal) then ProposalNotFound
  else Page {| analyze_shown := negb (strict_eq_str (field proposal "status") "analyzed");
               analyze_disabled := analyzing;
               funding_shown := strict_eq_str (field proposal "status") "analyzed";
               download_disabled := negb (truthy proposal) |}.

End AnalysisPage.

(** ** What the handlers of the views have in common *)

Module Handlers.

Import View.

(** The busy flag that the [finally] block of a handler resets. *)
Definition busy_flag (c : call) : option string :=
  match c with
  | DashboardFetchProposals | AnalysisFetchProposalData
  | FundingFetchRecommendations | GeneratorHandleSubmit => Some "loading"
  | AnalysisAnalyzeProposal => Some "analyzing"
  | FundingSearchFundersRealtime => Some "searching"
  | _ => None
  end.

Definition is_background (c : call) : bool :=
  match c with
  | AnalysisFetchBusinessPlanContent | FundingFetchProposalData => true
  | _ => false
  end.

Definition is_error_toast (e : effect) : bool :=
  match e with
  | ToastError _ => true
  | _ => false
  end.

End Handlers.

(** * Properties *)

(** ** The authentication context *)

Section AuthFacts.

Import Auth Lifecycle.

Variable env : option string.
Variable api : backend.

Ltac run_auth :=
  unfold login, register, login_request, register_request, try_catch, bind,
    axios_post, destructure_auth, Cookies_set, set_default_header, setToken,
    setUser, modify, ret, throw;
  cbn [fst snd].

(** The three ways [login] can go. *)
Lemma login_unfold email password s :
  login env api email password s =
  match api (login_request env email password s) with
  | Fulfilled r =>
      if nullish (data r)
      then (s, Normal (failure_result "Login failed"
                         (TypeError "Cannot destructure property 'access_token'")))
      else (signed_in_with (data r) s, Normal (success_result (data r)))
  | Rejected e => (s, Normal (failure_result "Login failed" e))
  end.
Proof.
  run_auth.
  destruct (api _) as [r|e]; [|reflexivity].
  destruct (nullish (data r)); reflexivity.
Qed.

Lemma register_unfold name email password s :
  register env api name email password s =
  match api (register_request env name email password s) with
  | Fulfilled r =>
      if nullish (data r)
      then (s, Normal (failure_result "Registration failed"
                         (TypeError "Cannot destructure property 'access_token'")))
      else (signed_in_with (data r) s, Normal (success_result (data r)))
  | Rejected e => (s, Normal (failure_result "Registration failed" e))
  end.
Proof.
  run_auth.
  destruct (api _) as [r|e]; [|reflexivity].
  destruct (nullish (data r)); reflexivity.
Qed.

Lemma logout_unfold s :
  logout s =
  ({| user := VNull; token := VNull; loading := loading s;
      cookies := delete "token" (cookies s);
      default_headers := delete "Authorization" (default_headers s) |},
   Normal tt).
Proof. reflexivity. Qed.

Lemma mount_unfold s :
  mount s =
  match cookies s !! "token" with
  | Some c =>
      if negb (String.eqb (cookie_value c) "")
      then ({| user := user s; token := VStr (cookie_value c); loading := false;
               cookies := cookies s;
               default_headers :=
                 <["Authorization" := "Bearer " +:+ cookie_value c]>
                   (default_headers s) |}, Normal tt)
      else ({| user := user s; token := token s; loading := false;
               cookies := cookies s; default_headers := default_headers s |},
            Normal tt)
  | None =>
      ({| user := user s; token := token s; loading := false;
          cookies := cookies s; default_headers := default_headers s |},
       Normal tt)
  end.
Proof.
  unfold mount, Cookies_get, gets, bind, setToken, set_default_header,
    setLoading, modify, ret.
  destruct (cookies s !! "token") as [c|]; cbn.
  - destruct (String.eqb (cookie_value c) ""); reflexivity.
  - reflexivity.
Qed.



Lemma failure_not_success fallback e :
  field (failure_result fallback e) "success" = VBool false.
Proof. reflexivity. Qed.

Lemma success_is_success d : field (success_result d) "success" = VBool true.
Proof. reflexivity. Qed.

End AuthFacts.

Import Lifecycle.

(** C3, as amended.  If [login(email, password)] returns [{success: true}],
    the backend fulfilled the request, and afterwards the session token is
    the [access_token] field of the response body (stored unchecked, so it is
    non-null exactly when the backend sent a non-null one), the user is the
    body's [user] field, the cookie named [token] holds the token's string
    form with a 1-day expiry, and the default [Authorization] header of the
    shared client is ["Bearer "] followed by the token's string form. *)
Theorem login_success_state env api email password s s' result :
  Auth.login env api email password s = (s', Auth.Normal result) ->
  field result "success" = VBool true ->
  exists r,
    api (login_request env email password s) = Fulfilled r
    /\ result = VObj [("success", VBool true); ("user", field (data r) "user")]
    /\ Auth.token s' = field (data r) "access_token"
    /\ Auth.user s' = field (data r) "user"
    /\ Auth.cookies s' !! "token"
       = Some (Auth.Cookie (to_string (Auth.token s')) (Some 1%nat))
    /\ Auth.default_headers s' !! "Authorization"
       = Some ("Bearer " +:+ to_string (Auth.token s'))
    /\ (nullish (Auth.token s') = false
        <-> nullish (field (data r) "access_token") = false).
Proof.
  intros Hrun Hok. rewrite login_unfold in Hrun.
  destruct (api _) as [r|e] eqn:Hapi.
  - destruct (nullish (data r)).
    + injection Hrun as <- <-. discriminate Hok.
    + injection Hrun as <- <-. exists r.
      repeat split; cbn; try reflexivity; try (apply lookup_insert_eq); auto.
  - injection Hrun as <- <-. discriminate Hok.
Qed.

Lemma login_success_state_witness :
  exists r,
    Sample.accepting
      (login_request None (VStr "alice@example.com") (VStr "secret") Sample.mounted)
    = Fulfilled r
    /\ Auth.token
         (fst (Auth.login None Sample.accepting (VStr "alice@example.com")
                 (VStr "secret") Sample.mounted))
       = field (data r) "access_token".
Proof.
  destruct (login_success_state None Sample.accepting (VStr "alice@example.com")
              (VStr "secret") Sample.mounted
              (fst (Auth.login None Sample.accepting (VStr "alice@example.com")
                      (VStr "secret") Sample.mounted))
              (VObj [("success", VBool true); ("user", Sample.alice)]))
    as (r & Hr & _ & Htok & _).
  - reflexivity.
  - reflexivity.
  - exists r. split; [exact Hr | exact Htok].
Defined.

(** C3, as stated, fails: when the request is answered 200 with a body that
    carries no [access_token] (here an HTML page), or a null one, [login]
    returns [{success: true}] and leaves the token undefined, respectively
    null, with the cookie and the header set from its string form. *)
Lemma login_success_without_token :
  let run := Auth.login None Sample.interstitial (VStr "alice@example.com")
               (VStr "secret") Sample.mounted in
  let run' := Auth.login None Sample.tokenless (VStr "alice@example.com")
                (VStr "secret") Sample.mounted in
  (snd run = Auth.Normal (VObj [("success", VBool true); ("user", VUndefined)])
   /\ Auth.token (fst run) = VUndefined
   /\ nullish (Auth.token (fst run)) = true
   /\ Auth.cookies (fst run) !! "token" = Some (Auth.Cookie "undefined" (Some 1%nat))
   /\ Auth.default_headers (fst run) !! "Authorization" = Some "Bearer undefined")
  /\ (snd run' = Auth.Normal (VObj [("success", VBool true); ("user", Sample.alice)])
      /\ Auth.token (fst run') = VNull
      /\ Auth.cookies (fst run') !! "token" = Some (Auth.Cookie "null" (Some 1%nat))
      /\ Auth.default_headers (fst run') !! "Authorization" = Some "Bearer null").
Proof. repeat split; reflexivity. Qed.


(** C5.  From every session state, when [login] returns
    [{success: false, error}] (the request was rejected, with or without a
    response, or the body could not be destructured), the session is exactly
    as before: user, token, loading flag, cookie jar and default headers. *)
Theorem login_failure_keeps_state env api email password s s' result :
  Auth.login env api email password s = (s', Auth.Normal result) ->
  field result "success" = VBool false ->
  s' = s.
Proof.
  intros Hrun Hfail. rewrite login_unfold in Hrun.
  destruct (api _) as [r|e].
  - destruct (nullish (data r)).
    + injection Hrun as <- _. reflexivity.
    + injection Hrun as _ <-. discriminate Hfail.
  - injection Hrun as <- _. reflexivity.
Qed.

Lemma login_failure_keeps_state_witness :
  fst (Auth.login None Sample.rejecting (VStr "alice@example.com") (VStr "wrong")
         Sample.signed_in)
  = Sample.signed_in.
Proof.
  apply (login_failure_keeps_state None Sample.rejecting (VStr "alice@example.com")
           (VStr "wrong") Sample.signed_in _
           (VObj [("success", VBool false); ("error", VStr "Invalid credentials")])).
  - reflexivity.
  - reflexivity.
Defined.

(** C6.  From every session state [logout()] completes normally and leaves
    the token null, the user null, no cookie named [token] and no default
    [Authorization] header; a second [logout()] changes nothing. *)
Theorem logout_clears_and_is_idempotent (s : Auth.session) :
  let s1 := fst (Auth.logout s) in
  snd (Auth.logout s) = Auth.Normal tt
  /\ Auth.token s1 = VNull
  /\ Auth.user s1 = VNull
  /\ Auth.cookies s1 !! "token" = None
  /\ Auth.default_headers s1 !! "Authorization" = None
  /\ Auth.logout s1 = (s1, Auth.Normal tt).
Proof.
  cbn zeta. rewrite !logout_unfold. cbn [fst snd Auth.token Auth.user
    Auth.cookies Auth.default_headers Auth.loading].
  repeat split; try apply lookup_delete_eq.
  rewrite !delete_delete_eq. reflexivity.
Qed.

(** ** Invariants of the reachable session states *)

Section Invariants.

Import Auth.

Lemma mount_token s :
  token (fst (mount s)) = token s
  \/ exists c, token (fst (mount s)) = VStr c /\ c <> "".
Proof.
  rewrite mount_unfold.
  destruct (cookies s !! "token") as [c|]; [|left; reflexivity].
  destruct (String.eqb_spec (cookie_value c) "") as [He|Hne]; cbn.
  - left. reflexivity.
  - right. exists (cookie_value c). split; [reflexivity | exact Hne].
Qed.

Lemma mount_user s : user (fst (mount s)) = user s.
Proof.
  rewrite mount_unfold.
  destruct (cookies s !! "token") as [c|]; [|reflexivity].
  destruct (negb _); reflexivity.
Qed.

Lemma nonempty_truthy c : c <> "" -> truthy (VStr c) = true.
Proof. intros Hne. cbn. destruct (String.eqb_spec c ""); [contradiction|reflexivity]. Qed.

Lemma truthy_not_nullish v : truthy v = true -> nullish v = false.
Proof. destruct v; cbn; congruence. Qed.

Lemma step_token_absent_or_truthy s s' :
  token_absent_or_truthy s ->
  step sends_no_falsy_token s s' ->
  token_absent_or_truthy s'.
Proof.
  unfold token_absent_or_truthy.
  intros Hs Hstep. destruct Hstep as [s|env api email password s Hok
                                     |env api name email password s Hok|s].
  - destruct (mount_token s) as [->|(c & -> & Hc)]; [exact Hs|].
    left. apply nonempty_truthy, Hc.
  - rewrite login_unfold.
    destruct (api _) as [r|e] eqn:Hapi; [|exact Hs].
    destruct (nullish (data r)) eqn:Hd; [exact Hs|].
    exact (Hok _ _ Hapi Hd).
  - rewrite register_unfold.
    destruct (api _) as [r|e] eqn:Hapi; [|exact Hs].
    destruct (nullish (data r)) eqn:Hd; [exact Hs|].
    exact (Hok _ _ Hapi Hd).
  - right. reflexivity.
Qed.

Lemma reachable_token_absent_or_truthy s :
  reachable sends_no_falsy_token s -> token_absent_or_truthy s.
Proof.
  induction 1 as [jar hdrs|s s' _ IH Hstep].
  - right. reflexivity.
  - eapply step_token_absent_or_truthy; eassumption.
Qed.

Lemma initial_user_only_with_token jar hdrs :
  user_only_with_token (initial jar hdrs).
Proof. intros Hu. discriminate Hu. Qed.

Lemma step_user_only_with_token s s' :
  user_only_with_token s ->
  step sends_token s s' ->
  user_only_with_token s'.
Proof.
  unfold user_only_with_token.
  intros Hs Hstep. destruct Hstep as [s|env api email password s Hok
                                     |env api name email password s Hok|s].
  - rewrite mount_user. intros Hu.
    destruct (mount_token s) as [->|(c & -> & Hc)]; [auto|reflexivity].
  - rewrite login_unfold.
    destruct (api _) as [r|e] eqn:Hapi; [|exact Hs].
    destruct (nullish (data r)) eqn:Hd; [exact Hs|].
    intros _. exact (Hok _ _ Hapi Hd).
  - rewrite register_unfold.
    destruct (api _) as [r|e] eqn:Hapi; [|exact Hs].
    destruct (nullish (data r)) eqn:Hd; [exact Hs|].
    intros _. exact (Hok _ _ Hapi Hd).
  - intros Hu. discriminate Hu.
Qed.

End Invariants.

(** C7, as amended.  In every session state whatever, [isAuthenticated] is
    [!!token]: true iff the token is truthy, so that it is false for the
    empty string, 0, false and NaN although these are not null; and when it
    is true the token is non-null.  In every session state reachable with a
    backend that never sends an [access_token] that is falsy without being
    null or undefined, [isAuthenticated] is true iff the token is non-null
    (neither null nor undefined). *)
Theorem isAuthenticated_iff_token :
  (forall s : Auth.session,
      Auth.isAuthenticated (Auth.provided s) = truthy (Auth.token s))
  /\ (forall s : Auth.session,
         Auth.isAuthenticated (Auth.provided s) = true ->
         nullish (Auth.token s) = false)
  /\ (forall (u : value) (l : bool) jar hdrs (t : value),
         In t [VStr ""; VNum 0; VBool false; VNaN] ->
         nullish t = false
         /\ Auth.isAuthenticated
              (Auth.provided (Auth.Session u t l jar hdrs)) = false)
  /\ (forall s : Auth.session,
         reachable sends_no_falsy_token s ->
         (Auth.isAuthenticated (Auth.provided s) = true
          <-> nullish (Auth.token s) = false)).
Proof.
  split; [reflexivity|]. split; [|split].
  - intros s. cbn. apply truthy_not_nullish.
  - intros u l jar hdrs t Ht. cbn in Ht.
    repeat (destruct Ht as [<-|Ht]; [split; reflexivity|]). destruct Ht.
  - intros s Hreach. cbn.
    destruct (reachable_token_absent_or_truthy s Hreach) as [Ht|Hn].
    + split; [apply truthy_not_nullish | intros _; exact Ht].
    + split; [apply truthy_not_nullish | congruence].
Qed.

Lemma sends_no_falsy_token_accepting : sends_no_falsy_token Sample.accepting.
Proof.
  intros req r Hr _. injection Hr as <-. left. reflexivity.
Defined.

Lemma isAuthenticated_iff_token_witness :
  let s := fst (Auth.login None Sample.accepting (VStr "alice@example.com")
                  (VStr "secret") Sample.mounted) in
  Auth.isAuthenticated (Auth.provided s) = true <-> nullish (Auth.token s) = false.
Proof.
  apply (proj2 (proj2 (proj2 isAuthenticated_iff_token))
           (fst (Auth.login None Sample.accepting (VStr "alice@example.com")
                   (VStr "secret") Sample.mounted))).
  eapply reach_step; [eapply reach_step; [apply (reach_initial _ ∅ ∅)|]|].
  - apply (step_mount _ Sample.fresh).
  - apply step_login. exact sends_no_falsy_token_accepting.
Defined.

(** C7, as stated, fails: after a login that the backend answers with an
    empty [access_token], the token is the empty string, which is not null,
    and [isAuthenticated] is false. *)
Lemma not_authenticated_with_empty_token :
  let s := fst (Auth.login None Sample.empty_token (VStr "alice@example.com")
                  (VStr "secret") Sample.mounted) in
  reachable any_backend s
  /\ Auth.token s = VStr ""
  /\ nullish (Auth.token s) = false
  /\ Auth.isAuthenticated (Auth.provided s) = false.
Proof.
  cbn zeta. split; [|repeat split; reflexivity].
  eapply reach_step; [eapply reach_step; [apply (reach_initial _ ∅ ∅)|]|].
  - apply (step_mount _ Sample.fresh).
  - apply step_login. exact I.
Qed.

(** C8, as amended.  The invariant "user is non-null only if token is
    non-null" holds initially and is preserved by cold-start hydration and
    by logout, and by login and register whenever the backend's success
    bodies carry a non-null [access_token]; so it holds in every state
    reachable with such a backend. *)
Theorem user_only_with_token_invariant :
  (forall jar hdrs, user_only_with_token (Auth.initial jar hdrs))
  /\ (forall s s',
         user_only_with_token s -> step sends_token s s' ->
         user_only_with_token s')
  /\ (forall s, reachable sends_token s -> user_only_with_token s).
Proof.
  split; [exact initial_user_only_with_token|].
  split; [exact step_user_only_with_token|].
  induction 1 as [jar hdrs|s s' _ IH Hstep].
  - apply initial_user_only_with_token.
  - eapply step_user_only_with_token; eassumption.
Qed.

Lemma sends_token_accepting : sends_token Sample.accepting.
Proof.
  intros req r Hr _. injection Hr as <-. reflexivity.
Defined.

Lemma user_only_with_token_invariant_witness :
  user_only_with_token
    (fst (Auth.login None Sample.accepting (VStr "alice@example.com")
            (VStr "secret") Sample.mounted)).
Proof.
  apply (proj2 (proj2 user_only_with_token_invariant)).
  eapply reach_step; [eapply reach_step; [apply (reach_initial _ ∅ ∅)|]|].
  - apply (step_mount _ Sample.fresh).
  - apply step_login. exact sends_token_accepting.
Defined.

(** C8, as stated, fails: a login answered with a user summary and a null
    [access_token] leads from the mounted state, where the invariant holds,
    to one whose user is non-null and whose token is null. *)
Lemma user_without_token :
  let s := fst (Auth.login None Sample.tokenless (VStr "alice@example.com")
                  (VStr "secret") Sample.mounted) in
  reachable any_backend s
  /\ user_only_with_token Sample.mounted
  /\ Auth.user s = Sample.alice
  /\ nullish (Auth.user s) = false
  /\ Auth.token s = VNull
  /\ ~ user_only_with_token s.
Proof.
  cbn zeta. split.
  { eapply reach_step; [eapply reach_step; [apply (reach_initial _ ∅ ∅)|]|].
    - apply (step_mount _ Sample.fresh).
    - apply step_login. exact I. }
  split; [intros Hu; discriminate Hu|].
  repeat split. intros H. specialize (H eq_refl). discriminate H.
Qed.

(** ** [useAuth] *)

Lemma useContext_outside path :
  Tree.inside_provider path = false -> Tree.useContext path = None.
Proof.
  induction path as [|[v|name] path IH]; cbn; intros H.
  - reflexivity.
  - discriminate H.
  - apply IH, H.
Qed.

Lemma useContext_nearest outer v inner :
  Tree.useContext inner = None ->
  Tree.useContext (outer ++ Tree.Provider v :: inner)%list = Some v.
Proof.
  intros Hin. induction outer as [|[w|name] outer IH]; cbn.
  - rewrite Hin. reflexivity.
  - rewrite IH. reflexivity.
  - exact IH.
Qed.

(** C10.  A component that is not rendered inside an [AuthProvider] gets an
    exception from [useAuth], with the message 'useAuth must be used within
    an AuthProvider', and not an undefined context; a component inside an
    [AuthProvider] gets the value of the nearest one, which is the session
    value that provider was rendered with. *)
Theorem useAuth_outside_and_inside :
  (forall path,
      Tree.inside_provider path = false ->
      Tree.useAuth path
      = Tree.Throws (Error "useAuth must be used within an AuthProvider"))
  /\ (forall outer v inner,
         Tree.inside_provider inner = false ->
         Tree.useAuth (outer ++ Tree.Provider v :: inner)%list = Tree.Returns v).
Proof.
  split.
  - intros path H. unfold Tree.useAuth. rewrite (useContext_outside _ H). reflexivity.
  - intros outer v inner H. unfold Tree.useAuth.
    rewrite (useContext_nearest outer v inner (useContext_outside _ H)). reflexivity.
Qed.

Lemma useAuth_outside_and_inside_witness :
  Tree.useAuth [Tree.Element "Router"; Tree.Element "Routes"]
  = Tree.Throws (Error "useAuth must be used within an AuthProvider")
  /\ Tree.useAuth (Sample.app_path (Auth.provided Sample.signed_in))
     = Tree.Returns (Auth.provided Sample.signed_in).
Proof.
  split.
  - apply (proj1 useAuth_outside_and_inside). reflexivity.
  - apply (proj2 useAuth_outside_and_inside [Tree.Element "ThemeProvider"]).
    reflexivity.
Defined.

(** ** The feature views *)

Import View.

Lemma observed_while_uploading events prev ticking :
  observed (while_uploading events prev ticking) = [].
Proof.
  revert prev ticking.
  induction events as [|[|loaded total] events IH]; intros prev ticking; cbn.
  - reflexivity.
  - destruct ticking; [destruct (90 <=? prev)%Z|]; cbn; apply IH.
  - apply IH.
Qed.

Ltac settle_trace :=
  cbn; unfold expiry_sequence;
  split; intros; try reflexivity; try discriminate; try congruence.

(** What the user observes of a call answered with an error response is
    the expiry sequence exactly when [expires] holds of the call and the
    response. *)
Lemma expiry_sequence_iff_expires env api token parseInt dfn c i r :
  issues token c i = true ->
  api (request_of env token parseInt c i) = Rejected (AxiosError (Some r)) ->
  (observed (run (handler env api token parseInt dfn c i)) = expiry_sequence
   <-> expires c r = true).
Proof.
  intros Hissue Hapi.
  destruct c; cbn [handler request_of issues expires] in *;
    unfold Dashboard_fetchProposals, Dashboard_downloadProposalPDF,
      Analysis_fetchProposalData, Analysis_fetchBusinessPlanContent,
      Analysis_analyzeProposal, Analysis_downloadProposalPDF,
      Funding_fetchRecommendations, Funding_fetchProposalData,
      Funding_searchFundersRealtime, Generator_handleSubmit,
      axios_get, axios_post, base, bearer in *.
  all: try (rewrite Hissue; cbn [negb]; rewrite Hapi; cbn;
            try (destruct (strict_eq_num (status r) 401)); settle_trace).
  apply andb_true_iff in Hissue as [Hfile Htok].
  unfold Upload_onDrop, axios_post, base, bearer.
  rewrite Hfile, Htok. cbn [negb]. rewrite Hapi.
  change (opt_field (data r) "error") with (exn_data_error (AxiosError (Some r))).
  cbn.
  destruct (strict_eq_num (status r) 401
            && strict_eq_str (exn_data_error (AxiosError (Some r))) "invalid_token");
    cbn; unfold observed; rewrite !List.filter_app;
    fold (observed (while_uploading (in_events i) 0 true));
    rewrite observed_while_uploading; settle_trace.
Qed.

(** Where the session does expire.  Take any view (Dashboard, Upload,
    Analysis, Funding, Generator) and any of its authenticated calls other
    than the two background fetches ([fetchBusinessPlanContent] of Analysis,
    [fetchProposalData] of Funding), whose [catch] only logs.  If the call
    is sent and the response carries HTTP 401 (and, for the Upload, its
    body's [error] is 'invalid_token'), then what the user observes of the
    handler is exactly one error notification, one [logout()] and one
    navigation to [/login], in that order. *)
Lemma session_expiry_handling env api token parseInt dfn c i r :
  issues token c i = true ->
  api (request_of env token parseInt c i) = Rejected (AxiosError (Some r)) ->
  c <> AnalysisFetchBusinessPlanContent ->
  c <> FundingFetchProposalData ->
  status r = VNum 401 ->
  (c = UploadOnDrop -> opt_field (data r) "error" = VStr "invalid_token") ->
  observed (run (handler env api token parseInt dfn c i))
  = [ToastError (VStr "Session expired. Please login again.");
     Logout;
     Navigate "/login"].
Proof.
  intros Hissue Hapi Hc1 Hc2 Hst Hup.
  apply (expiry_sequence_iff_expires env api token parseInt dfn c i r Hissue Hapi).
  destruct c; cbn; rewrite ?Hst; try reflexivity; try contradiction.
  rewrite (Hup eq_refl). reflexivity.
Qed.

Lemma session_expiry_handling_witness :
  observed (run (handler None Sample.expired (VStr "jwt-0") Sample.parse_seven
                   Sample.no_filename DashboardFetchProposals Sample.some_inputs))
  = [ToastError (VStr "Session expired. Please login again.");
     Logout;
     Navigate "/login"].
Proof.
  apply (session_expiry_handling None Sample.expired (VStr "jwt-0")
           Sample.parse_seven Sample.no_filename DashboardFetchProposals
           Sample.some_inputs
           (Sample.reply 401 (VObj [("msg", VStr "Token has expired")]))).
  - reflexivity.
  - reflexivity.
  - discriminate.
  - discriminate.
  - reflexivity.
  - discriminate.
Defined.

(** C1 fails on the code.  The Upload sends its request with a dropped file
    and a token, the answer carries HTTP 401 with the body
    [{msg: 'Token has expired'}], and all the user sees is the notification
    "Upload failed": no logout, no navigation.  Under the same comment
    ("Handle authentication errors") the Upload's [catch] tests
    [status === 401 && data?.error === 'invalid_token'], where its siblings
    test the status alone: on the very same answer the Dashboard's
    [fetchProposals] notifies, logs out and navigates to [/login]. *)
Theorem upload_401_without_logout :
  let t := run (handler None Sample.expired (VStr "jwt-0") Sample.parse_seven
                  Sample.no_filename UploadOnDrop Sample.some_inputs) in
  let t' := run (handler None Sample.expired (VStr "jwt-0") Sample.parse_seven
                   Sample.no_filename DashboardFetchProposals Sample.some_inputs) in
  issues (VStr "jwt-0") UploadOnDrop Sample.some_inputs = true
  /\ Sample.expired
       (request_of None (VStr "jwt-0") Sample.parse_seven UploadOnDrop
          Sample.some_inputs)
     = Rejected (AxiosError
                   (Some (Sample.reply 401 (VObj [("msg", VStr "Token has expired")]))))
  /\ observed t = [ToastError (VStr "Upload failed")]
  /\ observed t <> expiry_sequence
  /\ ~ In Logout t
  /\ ~ In (Navigate "/login") t
  /\ observed t'
     = [ToastError (VStr "Session expired. Please login again.");
        Logout;
        Navigate "/login"].
Proof.
  cbn zeta. repeat split; try reflexivity.
  - discriminate.
  - cbn. intros H. repeat (destruct H as [H|H]; [discriminate H|]). exact H.
  - cbn. intros H. repeat (destruct H as [H|H]; [discriminate H|]). exact H.
Qed.

(** The Upload does expire the session on a 401 'invalid_token'. *)
Lemma upload_invalid_token_expires :
  observed (run (handler None Sample.invalid_token (VStr "jwt-0") Sample.parse_seven
                   Sample.no_filename UploadOnDrop Sample.some_inputs))
  = expiry_sequence.
Proof. reflexivity. Qed.

(** On a 401 whose body is not an 'invalid_token' error, the session is
    expired by every call except the Upload's and the two background
    fetches. *)
Lemma bare_401_expires_iff c r :
  status r = VNum 401 ->
  opt_field (data r) "error" <> VStr "invalid_token" ->
  (expires c r = true
   <-> view_of c <> Upload
       /\ c <> AnalysisFetchBusinessPlanContent
       /\ c <> FundingFetchProposalData).
Proof.
  intros Hst Herr.
  assert (strict_eq_str (opt_field (data r) "error") "invalid_token" = false) as Hno.
  { destruct (opt_field (data r) "error") as [| | | | |e| |]; try reflexivity.
    cbn. destruct (String.eqb_spec e "invalid_token") as [->|]; [|reflexivity].
    contradiction. }
  destruct c; cbn; rewrite ?Hst, ?Hno; cbn;
    split; try (intros H; discriminate H); try (intros; reflexivity);
    try (intros (H1 & H2 & H3); congruence);
    intros _; repeat split; discriminate.
Qed.

(** The two background fetches swallow a 401 as well. *)
Lemma background_fetch_401_is_silent c :
  c = AnalysisFetchBusinessPlanContent \/ c = FundingFetchProposalData ->
  observed (run (handler None Sample.expired (VStr "jwt-0") Sample.parse_seven
                   Sample.no_filename c Sample.some_inputs)) = [].
Proof. intros [->| ->]; reflexivity. Qed.

(** ** Upload progress *)

Lemma progress_values_app t1 t2 :
  progress_values (t1 ++ t2) = (progress_values t1 ++ progress_values t2)%list.
Proof.
  induction t1 as [|e t1 IH]; [reflexivity|].
  destruct e as [| | | | |var v| | | | | |]; cbn; try exact IH.
  destruct (String.eqb var "uploadProgress"); [|exact IH].
  destruct v; cbn; rewrite IH; reflexivity.
Qed.

(** The trace of a successful upload: the synchronous start, what happens
    while the request is in flight, and the completion. *)
Lemma Upload_onDrop_success env api token files auth events r :
  truthy (nth 0 files VUndefined) = true ->
  truthy token = true ->
  api (Request "POST" (base env +:+ "/upload-proposal")
         (VObj [("file", nth 0 files VUndefined)]) (Some (bearer token)))
  = Fulfilled r ->
  run (Upload_onDrop env api token files auth events)
  = ([SetState "uploading" (VBool true);
      SetState "uploadProgress" (VNum 0);
      SetState "uploadedFile" (nth 0 files VUndefined);
      SetInterval 200;
      Log "Uploading with token:" (VStr "Token present");
      Log "Axios default auth:"
        (match auth with Some a => VStr a | None => VUndefined end);
      SetDefaultHeader "Authorization" (bearer token)]
     ++ while_uploading events 0 true
     ++ [ClearInterval;
         SetState "uploadProgress" (VNum 100);
         ToastSuccess "File uploaded successfully!";
         SetTimeout 1500
           (if nullish (data r) then []
            else [Navigate ("/analyze/" +:+ to_string (field (data r) "proposal_id"))])])%list.
Proof.
  intros Hfile Htok Hapi.
  unfold Upload_onDrop, axios_post. rewrite Hfile, Htok. cbn [negb].
  rewrite Hapi. reflexivity.
Qed.

(** On success the last value assigned to the progress is 100. *)
Lemma upload_success_ends_at_100 env api token files auth events r :
  truthy (nth 0 files VUndefined) = true ->
  truthy token = true ->
  api (Request "POST" (base env +:+ "/upload-proposal")
         (VObj [("file", nth 0 files VUndefined)]) (Some (bearer token)))
  = Fulfilled r ->
  last (progress_values (run (Upload_onDrop env api token files auth events)))
  = Some 100%Z.
Proof.
  intros Hfile Htok Hapi.
  rewrite (Upload_onDrop_success _ _ _ _ _ _ _ Hfile Htok Hapi).
  rewrite !progress_values_app. cbn.
  change (0%Z :: (progress_values (while_uploading events 0 true) ++ [100%Z])%list)
    with (([0%Z] ++ progress_values (while_uploading events 0 true)) ++ [100%Z])%list.
  apply last_snoc.
Qed.

(** The timer alone counts 10, 20, ..., 90 and stops. *)
Lemma timer_alone_is_monotone n ticking p :
  (p mod 10 = 0)%Z -> (0 <= p <= 90)%Z ->
  let vs := progress_values (while_uploading (replicate n Tick) p ticking) in
  Forall (fun v => (p <= v <= 90)%Z) vs /\ non_decreasing (p :: vs) = true.
Proof.
  revert ticking p. induction n as [|n IH]; intros ticking p Hmod Hp; cbn.
  - split; [constructor|reflexivity].
  - destruct ticking; [|apply IH; assumption].
    destruct (Z.leb_spec 90 p) as [Hge|Hlt].
    + assert (p = 90%Z) as -> by lia. cbn.
      destruct (IH false 90%Z) as [Hall Hmono]; [reflexivity|lia|].
      split; [constructor; [lia|exact Hall]|exact Hmono].
    + cbn.
      assert (p + 10 <= 90)%Z as Hnext.
      { pose proof (Z.div_mod p 10). lia. }
      destruct (IH true (p + 10)%Z) as [Hall Hmono].
      { rewrite <- Zplus_mod_idemp_l, Hmod. reflexivity. }
      { lia. }
      split.
      * constructor; [lia|]. eapply Forall_impl; [exact Hall|].
        cbn. intros v Hv. lia.
      * cbn in Hmono |- *. rewrite Hmono.
        destruct (Z.leb_spec p (p + 10)); [reflexivity|lia].
Qed.

(** C2 fails on the code.  A file is dropped, the transport reports the
    whole body sent (100 of 100), the 200 ms timer fires once while the
    server still processes the document, then the request succeeds: the
    values assigned to the progress are 0, 100, 90, 100.  The sequence
    decreases and exceeds 90 before the request completes; only its last
    value is as claimed. *)
Theorem upload_progress_regresses :
  let t := run (Upload_onDrop None Sample.stored (VStr "jwt-0") [Sample.a_file]
                  (Some "Bearer jwt-0") Sample.fast_upload) in
  progress_values t = [0; 100; 90; 100]%Z
  /\ non_decreasing (progress_values t) = false
  /\ In (ToastSuccess "File uploaded successfully!") t.
Proof.
  cbn zeta. repeat split. cbn.
  repeat (first [left; reflexivity | right]).
Qed.

(** ** The Funding action of the Dashboard *)

Lemma strict_eq_str_true v lit : strict_eq_str v lit = true <-> v = VStr lit.
Proof.
  destruct v; cbn; try (split; [discriminate|discriminate]).
  destruct (String.eqb_spec s lit) as [->|Hne]; split; try reflexivity;
    try discriminate.
  intros H. injection H as ->. contradiction.
Qed.

Lemma render_card_funding p c :
  render_card p = Some c ->
  (funding_disabled c = false
   <-> field p "status" = VStr "analyzed" \/ field p "status" = VStr "completed").
Proof.
  unfold render_card. destruct (nullish p); [discriminate|].
  intros H. injection H as <-. cbn [funding_disabled].
  rewrite <- !strict_eq_str_true.
  destruct (strict_eq_str (field p "status") "analyzed"),
           (strict_eq_str (field p "status") "completed"); cbn;
    intuition congruence.
Qed.

(** C9, as amended.  For every list of proposals the Dashboard renders as
    cards, the Funding action of a proposal is enabled if and only if its
    status is 'analyzed' or 'completed'; so of two proposals with status
    'analyzed' and 'processing', only the first has Funding enabled. *)
Theorem dashboard_funding_enabled proposals cards :
  Dashboard_render false (VArr proposals) = Some (Cards cards) ->
  Forall2 (fun p c =>
             funding_disabled c = false
             <-> field p "status" = VStr "analyzed"
                 \/ field p "status" = VStr "completed")
    proposals cards.
Proof.
  unfold Dashboard_render. destruct proposals as [|p ps]; [discriminate|].
  intros H. apply fmap_Some in H as (cs & Hmap & Hcs). injection Hcs as ->.
  apply mapM_Some in Hmap.
  eapply Forall2_impl; [exact Hmap|]. cbn. intros x y. apply render_card_funding.
Qed.

Lemma dashboard_funding_enabled_witness :
  exists cards,
    Dashboard_render false
      (VArr [Sample.proposal_with 1 "analyzed"; Sample.proposal_with 2 "processing"])
    = Some (Cards cards)
    /\ map funding_disabled cards = [false; true]
    /\ Forall2 (fun p c =>
                  funding_disabled c = false
                  <-> field p "status" = VStr "analyzed"
                      \/ field p "status" = VStr "completed")
         [Sample.proposal_with 1 "analyzed"; Sample.proposal_with 2 "processing"]
         cards.
Proof.
  eexists. split; [reflexivity|]. split; [reflexivity|].
  apply (dashboard_funding_enabled
           [Sample.proposal_with 1 "analyzed"; Sample.proposal_with 2 "processing"]).
  reflexivity.
Defined.

(** C9, as stated, fails: a proposal whose status is 'completed', not
    'analyzed', is rendered with the Funding action enabled. *)
Lemma funding_enabled_when_completed :
  exists c,
    Dashboard_render false (VArr [Sample.proposal_with 3 "completed"])
    = Some (Cards [c])
    /\ field (Sample.proposal_with 3 "completed") "status" <> VStr "analyzed"
    /\ funding_disabled c = false.
Proof.
  eexists. split; [reflexivity|]. split; [discriminate|reflexivity].
Qed.

(** * Further properties *)

Lemma find_by_id_cases pid l :
  (exists v, find_by_id pid l = ([], Next v))
  \/ (exists m, find_by_id pid l = ([], Raise (TypeError m))).
Proof.
  induction l as [|p l IH]; cbn.
  - left. eexists. reflexivity.
  - unfold member. destruct (nullish p); cbn.
    + right. eexists. reflexivity.
    + destruct (strict_eq_number (field p "id") pid).
      * left. eexists. reflexivity.
      * destruct IH as [[v ->]|[m ->]]; [left|right]; eexists; reflexivity.
Qed.

Lemma array_find_by_id_cases arr pid :
  (exists v, array_find_by_id arr pid = ([], Next v))
  \/ (exists m, array_find_by_id arr pid = ([], Raise (TypeError m))).
Proof.
  destruct arr; cbn; try (right; eexists; reflexivity).
  apply find_by_id_cases.
Qed.

Lemma Funding_fetchProposalData_silent env api token parseInt id :
  exists t c,
    Funding_fetchProposalData env api token parseInt id = (t, c)
    /\ observed t = []
    /\ (forall e, c <> Raise e).
Proof.
  unfold Funding_fetchProposalData, axios_get.
  destruct (truthy token); cbn [negb].
  2: { eexists _, _. split; [reflexivity|]. split; [reflexivity|discriminate]. }
  destruct (api _) as [r|e]; cbn -[array_find_by_id].
  2: { eexists _, _. split; [reflexivity|]. split; [reflexivity|discriminate]. }
  unfold member. destruct (nullish (data r)); cbn -[array_find_by_id].
  { eexists _, _. split; [reflexivity|]. split; [reflexivity|discriminate]. }
  destruct (array_find_by_id_cases (field (data r) "proposals") (parseInt id))
    as [[v ->]|[m ->]]; cbn.
  - destruct (truthy v); cbn;
      eexists _, _; (split; [reflexivity|]); (split; [reflexivity|discriminate]).
  - eexists _, _. split; [reflexivity|]. split; [reflexivity|discriminate].
Qed.

Lemma strict_eq_num_true v n : strict_eq_num v n = true -> v = VNum n.
Proof.
  destruct v; cbn; try discriminate. intros H. apply Z.eqb_eq in H. congruence.
Qed.

Lemma logout_observed t : In Logout t <-> In Logout (observed t).
Proof.
  unfold observed. rewrite List.filter_In. intuition.
Qed.

Ltac absurd_logout H :=
  cbn in H; repeat (destruct H as [H|H]; [discriminate H|]); try contradiction.

Ltac rejected_case r H :=
  cbn in H;
  try (destruct (strict_eq_num (status r) 401) eqn:Hst;
       [ exists r; split; [reflexivity|]; split;
           [apply strict_eq_num_true; exact Hst | cbn; rewrite ?Hst; reflexivity]
       | ]);
  absurd_logout H.

(** X10.  No handler of a view logs the user out on its own: if [logout()] occurs
    in the trace of a handler, the backend answered the handler's request
    with an error response of status 401 that satisfies the handler's
    expiry test.  Success paths, malformed bodies, network failures and
    other statuses never reach [logout()]. *)
Theorem logout_only_on_401 env api token parseInt dfn c i :
  In Logout (run (handler env api token parseInt dfn c i)) ->
  exists r,
    api (request_of env token parseInt c i) = Rejected (AxiosError (Some r))
    /\ status r = VNum 401
    /\ expires c r = true.
Proof.
  intros H.
  destruct c; cbn [handler request_of expires] in *;
    unfold Dashboard_fetchProposals, Dashboard_downloadProposalPDF,
      Analysis_fetchProposalData, Analysis_fetchBusinessPlanContent,
      Analysis_analyzeProposal, Analysis_downloadProposalPDF,
      Funding_fetchRecommendations,
      Funding_searchFundersRealtime, Generator_handleSubmit,
      axios_get, axios_post, member, base, bearer in *.
  all: try (destruct (truthy token) eqn:Htok; cbn [negb] in H; [|absurd_logout H];
            destruct (api _) as [r|[[r|]|m|m]] eqn:Hapi;
            [ | rejected_case r H | absurd_logout H | absurd_logout H
              | absurd_logout H ]).
  all: try (cbn -[array_find_by_id Funding_fetchProposalData] in H;
            try (destruct (nullish (data r)) eqn:Hd;
                 cbn -[array_find_by_id Funding_fetchProposalData] in H);
            absurd_logout H; fail).
  - (* Upload *)
    unfold Upload_onDrop, axios_post, base, bearer in H.
    destruct (truthy (nth 0 (in_acceptedFiles i) VUndefined)); cbn [negb] in H;
      [|absurd_logout H].
    apply logout_observed in H. unfold observed in H.
    destruct (truthy token); cbn [negb] in H; [|absurd_logout H].
    assert (forall tail,
               In Logout (List.filter observable
                            (while_uploading (in_events i) 0 true ++ tail)) ->
               In Logout (List.filter observable tail)) as Hskip.
    { intros tail. rewrite List.filter_app.
      fold (observed (while_uploading (in_events i) 0 true)).
      rewrite observed_while_uploading. exact (fun x => x). }
    destruct (api _) as [r|[[r|]|m|m]] eqn:Hapi; cbn in H.
    + apply Hskip in H. absurd_logout H.
    + change (exn_data_error (AxiosError (Some r)))
        with (opt_field (data r) "error") in H.
      destruct (strict_eq_num (status r) 401
                && strict_eq_str (opt_field (data r) "error") "invalid_token")
        eqn:Hex.
      * exists r. split; [reflexivity|]. split; [|exact Hex].
        apply andb_true_iff in Hex as [Hst _]. apply strict_eq_num_true, Hst.
      * cbn in H. rewrite app_nil_r in H. apply Hskip in H. absurd_logout H.
    + rewrite app_nil_r in H. apply Hskip in H. absurd_logout H.
    + rewrite app_nil_r in H. apply Hskip in H. absurd_logout H.
    + rewrite app_nil_r in H. apply Hskip in H. absurd_logout H.
  - (* Analysis: fetchProposalData *)
    cbn -[array_find_by_id] in H.
    destruct (nullish (data r)); cbn -[array_find_by_id] in H; [absurd_logout H|].
    destruct (array_find_by_id_cases
                (or_else (field (data r) "proposals") (VArr []))
                (parseInt (in_id i))) as [[v Hv]|[m Hm]].
    + rewrite Hv in H. cbn in H.
      destruct (truthy v); cbn in H; [|absurd_logout H].
      destruct (strict_eq_str (field v "status") "analyzed"); absurd_logout H.
    + rewrite Hm in H. absurd_logout H.
  - (* Analysis: downloadProposalPDF *)
    cbn in H. destruct (nullish (in_proposal i)); absurd_logout H.
  - (* Funding: fetchRecommendations *)
    cbn -[Funding_fetchProposalData] in H.
    destruct (nullish (data r)); cbn -[Funding_fetchProposalData] in H;
      [absurd_logout H|].
    destruct (Funding_fetchProposalData_silent env api token parseInt (in_id i))
      as (t & k & Heq & Hobs & Hk).
    rewrite Heq in H. apply logout_observed in H. unfold observed in H.
    destruct k as [[]| |e]; [| |destruct (Hk e eq_refl)];
      cbn in H; rewrite ?List.filter_app in H; fold (observed t) in H;
      rewrite Hobs in H; absurd_logout H.
  - (* Funding: fetchProposalData *)
    destruct (Funding_fetchProposalData_silent env api token parseInt (in_id i))
      as (t & k & Heq & Hobs & _).
    rewrite Heq in H. cbn in H. apply logout_observed in H.
    rewrite Hobs in H. contradiction.
Qed.

(** ** More on the authentication context *)

(** X1.  If [register(name, email, password)] returns [{success: true}], the
    backend fulfilled the request and the session is set from the response
    body exactly as [login] sets it: token and user from [access_token] and
    [user], the cookie [token] with the token's string form and a 1-day
    expiry, the default [Authorization] header ["Bearer "] plus that
    string. *)
Theorem register_success_state env api name email password s s' result :
  Auth.register env api name email password s = (s', Auth.Normal result) ->
  field result "success" = VBool true ->
  exists r,
    api (register_request env name email password s) = Fulfilled r
    /\ result = VObj [("success", VBool true); ("user", field (data r) "user")]
    /\ Auth.token s' = field (data r) "access_token"
    /\ Auth.user s' = field (data r) "user"
    /\ Auth.cookies s' !! "token"
       = Some (Auth.Cookie (to_string (Auth.token s')) (Some 1%nat))
    /\ Auth.default_headers s' !! "Authorization"
       = Some ("Bearer " +:+ to_string (Auth.token s')).
Proof.
  intros Hrun Hok. rewrite register_unfold in Hrun.
  destruct (api _) as [r|e] eqn:Hapi.
  - destruct (nullish (data r)).
    + injection Hrun as <- <-. discriminate Hok.
    + injection Hrun as <- <-. exists r.
      repeat split; cbn; try reflexivity; apply lookup_insert_eq.
  - injection Hrun as <- <-. discriminate Hok.
Qed.

Lemma register_success_state_witness :
  exists r,
    Sample.accepting
      (register_request None (VStr "Alice") (VStr "alice@example.com")
         (VStr "secret") Sample.mounted)
    = Fulfilled r
    /\ Auth.token
         (fst (Auth.register None Sample.accepting (VStr "Alice")
                 (VStr "alice@example.com") (VStr "secret") Sample.mounted))
       = field (data r) "access_token".
Proof.
  destruct (register_success_state None Sample.accepting (VStr "Alice")
              (VStr "alice@example.com") (VStr "secret") Sample.mounted
              (fst (Auth.register None Sample.accepting (VStr "Alice")
                      (VStr "alice@example.com") (VStr "secret") Sample.mounted))
              (VObj [("success", VBool true); ("user", Sample.alice)]))
    as (r & Hr & _ & Htok & _).
  - reflexivity.
  - reflexivity.
  - exists r. split; [exact Hr | exact Htok].
Defined.

(** X2.  When [register] returns [{success: false, error}], the session (user,
    token, loading flag, cookie jar, default headers) is exactly as
    before. *)
Theorem register_failure_keeps_state env api name email password s s' result :
  Auth.register env api name email password s = (s', Auth.Normal result) ->
  field result "success" = VBool false ->
  s' = s.
Proof.
  intros Hrun Hfail. rewrite register_unfold in Hrun.
  destruct (api _) as [r|e].
  - destruct (nullish (data r)).
    + injection Hrun as <- _. reflexivity.
    + injection Hrun as _ <-. discriminate Hfail.
  - injection Hrun as <- _. reflexivity.
Qed.

Lemma register_failure_keeps_state_witness :
  fst (Auth.register None Sample.rejecting (VStr "Alice") (VStr "alice@example.com")
         (VStr "secret") Sample.signed_in)
  = Sample.signed_in.
Proof.
  apply (register_failure_keeps_state None Sample.rejecting (VStr "Alice")
           (VStr "alice@example.com") (VStr "secret") Sample.signed_in _
           (VObj [("success", VBool false); ("error", VStr "Invalid credentials")])).
  - reflexivity.
  - reflexivity.
Defined.

Lemma reload_with_cookie hdrs s t days :
  Auth.cookies s !! "token" = Some (Auth.Cookie t days) ->
  t <> "" ->
  Shell.reload hdrs s
  = {| Auth.user := VNull; Auth.token := VStr t; Auth.loading := false;
       Auth.cookies := Auth.cookies s;
       Auth.default_headers := <["Authorization" := "Bearer " +:+ t]> hdrs |}.
Proof.
  intros Hc Ht. unfold Shell.reload. rewrite mount_unfold. cbn.
  rewrite Hc. cbn. destruct (String.eqb_spec t ""); [contradiction|reflexivity].
Qed.

Lemma reload_without_cookie hdrs s :
  Auth.cookies s !! "token" = None ->
  Shell.reload hdrs s
  = {| Auth.user := VNull; Auth.token := VNull; Auth.loading := false;
       Auth.cookies := Auth.cookies s; Auth.default_headers := hdrs |}.
Proof.
  intros Hc. unfold Shell.reload. rewrite mount_unfold. cbn.
  rewrite Hc. reflexivity.
Qed.

(** X4.  After a login that the backend answers with a non-empty string
    [access_token], loading the page again (fresh component state, the
    browser's cookie jar, then the mount effect) restores the same token and
    the same [Authorization] header and keeps the jar, but not the user:
    [user] is null after the reload. *)
Theorem token_survives_reload env api email password s r t hdrs :
  api (login_request env email password s) = Fulfilled r ->
  field (data r) "access_token" = VStr t ->
  t <> "" ->
  let s1 := fst (Auth.login env api email password s) in
  let s2 := Shell.reload hdrs s1 in
  Auth.token s2 = Auth.token s1
  /\ Auth.default_headers s2 !! "Authorization" = Some ("Bearer " +:+ t)
  /\ Auth.default_headers s1 !! "Authorization" = Some ("Bearer " +:+ t)
  /\ Auth.cookies s2 = Auth.cookies s1
  /\ Auth.user s1 = field (data r) "user"
  /\ Auth.user s2 = VNull
  /\ Auth.loading s2 = false.
Proof.
  intros Hapi Htok Ht. cbn zeta.
  assert (nullish (data r) = false) as Hd.
  { destruct (data r); try discriminate Htok; reflexivity. }
  rewrite login_unfold, Hapi, Hd. cbn [fst].
  rewrite (reload_with_cookie hdrs _ t (Some 1%nat)); [| |exact Ht].
  - cbn. rewrite Htok. cbn. repeat split; apply lookup_insert_eq.
  - cbn. rewrite Htok. apply lookup_insert_eq.
Qed.

Lemma token_survives_reload_witness :
  Auth.token
    (Shell.reload ∅
       (fst (Auth.login None Sample.accepting (VStr "alice@example.com")
               (VStr "secret") Sample.mounted)))
  = Auth.token
      (fst (Auth.login None Sample.accepting (VStr "alice@example.com")
              (VStr "secret") Sample.mounted)).
Proof.
  apply (token_survives_reload None Sample.accepting (VStr "alice@example.com")
           (VStr "secret") Sample.mounted
           (Sample.reply 200 (VObj [("access_token", VStr "jwt-1");
                                    ("user", Sample.alice)]))
           "jwt-1" ∅).
  - reflexivity.
  - reflexivity.
  - discriminate.
Defined.

(** X5.  After [logout()] a reload does not bring the session back: with no
    [Authorization] header in the client's initial headers, the state after
    the mount effect has a null token, a null user, no header and no
    cookie, and the route guard redirects to [/login]. *)
Theorem logout_survives_reload s hdrs :
  hdrs !! "Authorization" = None ->
  let s' := Shell.reload hdrs (fst (Auth.logout s)) in
  Auth.token s' = VNull
  /\ Auth.user s' = VNull
  /\ Auth.default_headers s' !! "Authorization" = None
  /\ Auth.cookies s' !! "token" = None
  /\ Shell.ProtectedRoute (Auth.provided s') = Shell.Redirect "/login".
Proof.
  intros Hh. cbn zeta. rewrite logout_unfold. cbn [fst].
  rewrite reload_without_cookie; cbn; [|apply lookup_delete_eq].
  repeat split; try assumption. apply lookup_delete_eq.
Qed.

Lemma logout_survives_reload_witness :
  Auth.token (Shell.reload ∅ (fst (Auth.logout Sample.signed_in))) = VNull.
Proof.
  apply (logout_survives_reload Sample.signed_in ∅). reflexivity.
Defined.

(** X3.  Whatever the backend answers, logging in (or registering) and then
    logging out leaves the session exactly as logging out directly would:
    nothing of the attempt remains in the cookie jar or the client's
    headers. *)
Theorem login_then_logout env api name email password s :
  fst (Auth.logout (fst (Auth.login env api email password s)))
  = fst (Auth.logout s)
  /\ fst (Auth.logout (fst (Auth.register env api name email password s)))
     = fst (Auth.logout s).
Proof.
  split.
  - rewrite login_unfold.
    destruct (api _) as [r|e]; [destruct (nullish (data r))|]; try reflexivity.
    rewrite !logout_unfold. cbn. rewrite !delete_insert_eq. reflexivity.
  - rewrite register_unfold.
    destruct (api _) as [r|e]; [destruct (nullish (data r))|]; try reflexivity.
    rewrite !logout_unfold. cbn. rewrite !delete_insert_eq. reflexivity.
Qed.

Lemma step_header_follows_token ok s s' :
  (Auth.token s <> VNull ->
   Auth.default_headers s !! "Authorization"
   = Some ("Bearer " +:+ to_string (Auth.token s))) ->
  step ok s s' ->
  Auth.token s' <> VNull ->
  Auth.default_headers s' !! "Authorization"
  = Some ("Bearer " +:+ to_string (Auth.token s')).
Proof.
  intros Hs Hstep. destruct Hstep as [s|env api email password s Hok
                                     |env api name email password s Hok|s].
  - rewrite mount_unfold.
    destruct (Auth.cookies s !! "token") as [c|]; [|exact Hs].
    destruct (negb _); [|exact Hs].
    intros _. cbn. apply lookup_insert_eq.
  - rewrite login_unfold.
    destruct (api _) as [r|e]; [destruct (nullish (data r))|]; try exact Hs.
    intros _. cbn. apply lookup_insert_eq.
  - rewrite register_unfold.
    destruct (api _) as [r|e]; [destruct (nullish (data r))|]; try exact Hs.
    intros _. cbn. apply lookup_insert_eq.
  - rewrite logout_unfold. cbn. congruence.
Qed.

(** X6.  In every session state reachable through mount, login, register and
    logout, with any backend, a token other than null in memory is the
    token of the shared client's default [Authorization] header: the header
    is ["Bearer "] followed by the token's string form. *)
Theorem header_follows_token s :
  reachable any_backend s ->
  Auth.token s <> VNull ->
  Auth.default_headers s !! "Authorization"
  = Some ("Bearer " +:+ to_string (Auth.token s)).
Proof.
  induction 1 as [jar hdrs|s s' _ IH Hstep].
  - intros H. contradiction H. reflexivity.
  - eapply step_header_follows_token; eassumption.
Qed.

Lemma header_follows_token_witness :
  let s := fst (Auth.login None Sample.accepting (VStr "alice@example.com")
                  (VStr "secret") Sample.mounted) in
  Auth.default_headers s !! "Authorization"
  = Some ("Bearer " +:+ to_string (Auth.token s)).
Proof.
  apply (header_follows_token
           (fst (Auth.login None Sample.accepting (VStr "alice@example.com")
                   (VStr "secret") Sample.mounted))).
  - eapply reach_step; [eapply reach_step; [apply (reach_initial _ ∅ ∅)|]|].
    + apply (step_mount _ Sample.fresh).
    + apply step_login. exact I.
  - discriminate.
Defined.

(** ** The route guard and the navigation bar *)

(** X7.  [ProtectedRoute] does not look at [loading]: on the first render, before
    the mount effect has run, it redirects to [/login] whatever the cookie
    jar holds.  Once the effect has run it renders its children if the jar
    has a non-empty [token] cookie and redirects otherwise. *)
Theorem guard_on_cold_start jar hdrs :
  Shell.ProtectedRoute (Auth.provided (Auth.initial jar hdrs))
  = Shell.Redirect "/login"
  /\ (forall c,
         jar !! "token" = Some c -> Auth.cookie_value c <> "" ->
         Shell.ProtectedRoute
           (Auth.provided (fst (Auth.mount (Auth.initial jar hdrs))))
         = Shell.Children)
  /\ ((jar !! "token" = None
       \/ exists c, jar !! "token" = Some c /\ Auth.cookie_value c = "") ->
      Shell.ProtectedRoute
        (Auth.provided (fst (Auth.mount (Auth.initial jar hdrs))))
      = Shell.Redirect "/login").
Proof.
  split; [reflexivity|]. split.
  - intros c Hc Hne. rewrite mount_unfold. cbn. rewrite Hc.
    destruct (String.eqb_spec (Auth.cookie_value c) "") as [|_]; [contradiction|].
    cbn. unfold Shell.ProtectedRoute. cbn.
    destruct (String.eqb_spec (Auth.cookie_value c) ""); [contradiction|reflexivity].
  - intros [Hc|(c & Hc & He)]; rewrite mount_unfold; cbn; rewrite Hc.
    + reflexivity.
    + rewrite He. reflexivity.
Qed.

Lemma guard_on_cold_start_witness :
  Shell.ProtectedRoute (Auth.provided (Auth.initial (Auth.cookies Sample.signed_in) ∅))
  = Shell.Redirect "/login"
  /\ Shell.ProtectedRoute
       (Auth.provided
          (fst (Auth.mount (Auth.initial (Auth.cookies Sample.signed_in) ∅))))
     = Shell.Children.
Proof.
  split.
  - apply (proj1 (guard_on_cold_start (Auth.cookies Sample.signed_in) ∅)).
  - apply (proj1 (proj2 (guard_on_cold_start (Auth.cookies Sample.signed_in) ∅))
             (Auth.Cookie "jwt-0" (Some 1%nat))).
    + reflexivity.
    + discriminate.
Defined.

(** X8.  The route guard and the navigation bar never disagree: in every session
    state the guard renders its children exactly when the bar shows the
    navigation items and the account menu, and redirects to [/login]
    exactly when the bar shows the Login and Register buttons. *)
Theorem guard_agrees_with_navbar (s : Auth.session) pathname anchorEl :
  (Shell.ProtectedRoute (Auth.provided s) = Shell.Children
   <-> exists items menu_open label,
         Shell.Navbar (Auth.provided s) pathname anchorEl
         = Shell.SignedIn items menu_open label)
  /\ (Shell.ProtectedRoute (Auth.provided s) = Shell.Redirect "/login"
      <-> Shell.Navbar (Auth.provided s) pathname anchorEl
          = Shell.Guest [("Login", "/login"); ("Register", "/register")]).
Proof.
  unfold Shell.ProtectedRoute, Shell.Navbar. cbn.
  destruct (truthy (Auth.token s)); split; split; intros H;
    try reflexivity; try discriminate H.
  - eexists _, _, _. reflexivity.
  - destruct H as (? & ? & ? & H). discriminate H.
Qed.

(** X9.  The Logout item of the account menu does three things in this
    order: it runs the context's [logout()], it closes the menu
    ([setAnchorEl(null)]) and it navigates to [/login].  So from every
    session state and whatever the anchor was, the session is the one that
    [logout] leaves, the anchor is null and the menu closed, the bar shows
    Login and Register and the guard redirects. *)
Theorem navbar_logout_signs_out (s : Auth.session) pathname anchorEl :
  let t := run Shell.Navbar_handleLogout in
  let s' := Shell.session_after t s in
  let anchorEl' := Shell.anchor_after t anchorEl in
  t = [Logout; SetState "anchorEl" VNull; Navigate "/login"]
  /\ s' = fst (Auth.logout s)
  /\ anchorEl' = VNull
  /\ truthy anchorEl' = false
  /\ last t = Some (Navigate "/login")
  /\ Shell.Navbar (Auth.provided s') pathname anchorEl'
     = Shell.Guest [("Login", "/login"); ("Register", "/register")]
  /\ Shell.ProtectedRoute (Auth.provided s') = Shell.Redirect "/login".
Proof. cbn zeta. repeat split. Qed.

(** ** More on the handlers of the views *)

(** X11.  Without a truthy token no handler sends a request: its whole run is the
    same whatever the backend would answer, it never calls [logout()] and
    never shows a success notification. *)
Theorem no_token_no_request env api api' token parseInt dfn c i :
  truthy token = false ->
  handler env api token parseInt dfn c i = handler env api' token parseInt dfn c i
  /\ ~ In Logout (run (handler env api token parseInt dfn c i))
  /\ (forall msg, ~ In (ToastSuccess msg) (run (handler env api token parseInt dfn c i))).
Proof.
  intros Htok.
  destruct c; cbn [handler];
    unfold Dashboard_fetchProposals, Dashboard_downloadProposalPDF, Upload_onDrop,
      Analysis_fetchProposalData, Analysis_fetchBusinessPlanContent,
      Analysis_analyzeProposal, Analysis_downloadProposalPDF,
      Funding_fetchRecommendations, Funding_fetchProposalData,
      Funding_searchFundersRealtime, Generator_handleSubmit;
    rewrite Htok; cbn [negb];
    try (destruct (truthy (nth 0 (in_acceptedFiles i) VUndefined)); cbn [negb]);
    (split; [reflexivity|]); cbn;
    (split; [|intros msg]); intros H;
    repeat (destruct H as [H|H]; [discriminate H|]); exact H.
Qed.

Lemma no_token_no_request_witness :
  handler None Sample.accepting VNull Sample.parse_seven Sample.no_filename
    GeneratorHandleSubmit Sample.some_inputs
  = handler None Sample.expired VNull Sample.parse_seven Sample.no_filename
      GeneratorHandleSubmit Sample.some_inputs.
Proof.
  apply (no_token_no_request None Sample.accepting Sample.expired VNull
           Sample.parse_seven Sample.no_filename GeneratorHandleSubmit
           Sample.some_inputs).
  reflexivity.
Defined.

(** X12.  The six handlers with a [finally] block (fetchProposals,
    Analysis fetchProposalData, analyzeProposal, fetchRecommendations,
    searchFundersRealtime, handleSubmit) end every run, whatever the token,
    the inputs and the backend's answer, by setting their busy flag
    ([loading], [analyzing], [searching]) to false. *)
Theorem busy_flag_always_reset env api token parseInt dfn c i flag :
  Handlers.busy_flag c = Some flag ->
  last (run (handler env api token parseInt dfn c i))
  = Some (SetState flag (VBool false)).
Proof.
  intros Hflag.
  destruct c; cbn in Hflag; try discriminate Hflag; injection Hflag as <-;
    cbn [handler];
    unfold Dashboard_fetchProposals, Analysis_fetchProposalData,
      Analysis_analyzeProposal, Funding_fetchRecommendations,
      Funding_searchFundersRealtime, Generator_handleSubmit, finally, run, bind, emit;
    cbn [fst snd app];
    rewrite ?app_comm_cons; apply last_snoc.
Qed.

Lemma busy_flag_always_reset_witness :
  last (run (handler None Sample.expired (VStr "jwt-0") Sample.parse_seven
               Sample.no_filename FundingSearchFundersRealtime Sample.some_inputs))
  = Some (SetState "searching" (VBool false)).
Proof.
  apply (busy_flag_always_reset None Sample.expired (VStr "jwt-0") Sample.parse_seven
           Sample.no_filename FundingSearchFundersRealtime Sample.some_inputs).
  reflexivity.
Defined.

Lemma Analysis_fetchBusinessPlanContent_silent env api token pid :
  exists t c,
    Analysis_fetchBusinessPlanContent env api token pid = (t, c)
    /\ observed t = []
    /\ (forall e, c <> Raise e).
Proof.
  unfold Analysis_fetchBusinessPlanContent, axios_get, member.
  destruct (truthy token); cbn [negb].
  2: { eexists _, _. split; [reflexivity|]. split; [reflexivity|discriminate]. }
  destruct (api _) as [r|e]; cbn.
  2: { eexists _, _. split; [reflexivity|]. split; [reflexivity|discriminate]. }
  destruct (nullish (data r)); cbn;
    eexists _, _; (split; [reflexivity|]); (split; [reflexivity|discriminate]).
Qed.

(** X13.  The two background fetches ([fetchBusinessPlanContent] of Analysis,
    [fetchProposalData] of Funding) never notify, log out or navigate and
    never throw to their caller, whatever the token, the backend's answer
    and the shape of the response body. *)
Theorem background_fetches_are_silent env api token parseInt dfn c i :
  Handlers.is_background c = true ->
  observed (run (handler env api token parseInt dfn c i)) = []
  /\ (forall e, snd (handler env api token parseInt dfn c i) <> Raise e).
Proof.
  intros Hc. destruct c; try discriminate Hc; cbn [handler].
  - destruct (Analysis_fetchBusinessPlanContent_silent env api token
                (parseInt (in_id i))) as (t & k & -> & Hobs & Hk).
    split; [exact Hobs | exact Hk].
  - destruct (Funding_fetchProposalData_silent env api token parseInt (in_id i))
      as (t & k & -> & Hobs & Hk).
    split; [exact Hobs | exact Hk].
Qed.

Lemma background_fetches_are_silent_witness :
  observed (run (handler None Sample.expired (VStr "jwt-0") Sample.parse_seven
                   Sample.no_filename FundingFetchProposalData Sample.some_inputs))
  = [].
Proof.
  apply (background_fetches_are_silent None Sample.expired (VStr "jwt-0")
           Sample.parse_seven Sample.no_filename FundingFetchProposalData
           Sample.some_inputs).
  reflexivity.
Defined.

Lemma session_after_app t1 t2 s :
  Shell.session_after (t1 ++ t2)%list s
  = Shell.session_after t2 (Shell.session_after t1 s).
Proof.
  revert s. induction t1 as [|e t1 IH]; intros s; [reflexivity|].
  destruct e; cbn; apply IH.
Qed.

Lemma session_after_while_uploading events prev ticking s :
  Shell.session_after (while_uploading events prev ticking) s = s.
Proof.
  revert prev ticking.
  induction events as [|[|loaded total] events IH]; intros prev ticking; cbn.
  - reflexivity.
  - destruct ticking; [destruct (90 <=? prev)%Z|]; cbn; apply IH.
  - apply IH.
Qed.

Lemma signed_out_after_logout s :
  let s' := fst (Auth.logout s) in
  Auth.token s' = VNull
  /\ Auth.user s' = VNull
  /\ Auth.cookies s' !! "token" = None
  /\ Auth.default_headers s' !! "Authorization" = None
  /\ Shell.ProtectedRoute (Auth.provided s') = Shell.Redirect "/login".
Proof.
  cbn zeta. rewrite logout_unfold. cbn.
  repeat split; apply lookup_delete_eq.
Qed.

(** X14.  When a call's response expires the session (status 401 and the call's
    expiry test), running the handler's effects on any session leaves it
    signed out: token and user null, no [token] cookie, no default
    [Authorization] header (also for the Upload, which has just set it),
    and the route guard redirects to [/login]. *)
Theorem expired_session_is_destroyed env api token parseInt dfn c i r s :
  issues token c i = true ->
  api (request_of env token parseInt c i) = Rejected (AxiosError (Some r)) ->
  expires c r = true ->
  let s' := Shell.session_after (run (handler env api token parseInt dfn c i)) s in
  Auth.token s' = VNull
  /\ Auth.user s' = VNull
  /\ Auth.cookies s' !! "token" = None
  /\ Auth.default_headers s' !! "Authorization" = None
  /\ Shell.ProtectedRoute (Auth.provided s') = Shell.Redirect "/login".
Proof.
  intros Hissue Hapi Hex. cbn zeta.
  destruct c; cbn [handler request_of issues expires] in *;
    try discriminate Hex;
    unfold Dashboard_fetchProposals, Dashboard_downloadProposalPDF,
      Analysis_fetchProposalData, Analysis_analyzeProposal,
      Analysis_downloadProposalPDF, Funding_fetchRecommendations,
      Funding_searchFundersRealtime, Generator_handleSubmit,
      axios_get, axios_post, base, bearer in *.
  all: try (rewrite Hissue; cbn [negb]; rewrite Hapi; cbn; rewrite Hex; cbn;
            apply signed_out_after_logout).
  apply andb_true_iff in Hissue as [Hfile Htok].
  unfold Upload_onDrop, axios_post, base, bearer.
  rewrite Hfile, Htok. cbn [negb]. rewrite Hapi.
  change (opt_field (data r) "error") with (exn_data_error (AxiosError (Some r))) in Hex.
  cbn. rewrite Hex. cbn.
  rewrite !session_after_app, session_after_while_uploading. cbn.
  repeat split; apply lookup_delete_eq.
Qed.

Lemma expired_session_is_destroyed_witness :
  Auth.token
    (Shell.session_after
       (run (handler None Sample.invalid_token (VStr "jwt-0") Sample.parse_seven
               Sample.no_filename UploadOnDrop Sample.some_inputs))
       Sample.signed_in)
  = VNull.
Proof.
  apply (expired_session_is_destroyed None Sample.invalid_token (VStr "jwt-0")
           Sample.parse_seven Sample.no_filename UploadOnDrop Sample.some_inputs
           (Sample.reply 401 (VObj [("error", VStr "invalid_token")]))
           Sample.signed_in).
  - reflexivity.
  - reflexivity.
  - reflexivity.
Defined.

(** ** The panel of the upload view *)





(** ** Upload progress, continued *)

Lemma non_decreasing_snoc l x :
  non_decreasing l = true ->
  Forall (fun v => (v <= x)%Z) l ->
  non_decreasing (l ++ [x]) = true.
Proof.
  induction l as [|a l IH]; intros Hl Hall; [reflexivity|].
  destruct l as [|b l].
  - cbn. inversion Hall; subst.
    destruct (Z.leb_spec a x); [reflexivity|lia].
  - cbn in Hl |- *. apply andb_true_iff in Hl as [Hab Hrest].
    rewrite Hab. cbn. apply IH; [exact Hrest|]. inversion Hall; assumption.
Qed.

Lemma upload_success_progress_values env api token files auth events r :
  truthy (nth 0 files VUndefined) = true ->
  truthy token = true ->
  api (Request "POST" (base env +:+ "/upload-proposal")
         (VObj [("file", nth 0 files VUndefined)]) (Some (bearer token)))
  = Fulfilled r ->
  progress_values (run (Upload_onDrop env api token files auth events))
  = (0%Z :: progress_values (while_uploading events 0 true) ++ [100%Z])%list.
Proof.
  intros Hfile Htok Hapi.
  rewrite (Upload_onDrop_success _ _ _ _ _ _ _ Hfile Htok Hapi).
  rewrite !progress_values_app. reflexivity.
Qed.

(** X18.  On every successful upload, whatever timer ticks and transport progress
    events occur in flight, at least two values are assigned to the
    progress, the first is 0 and the last is 100.  Nothing is said of the
    values in between. *)
Theorem upload_progress_first_and_last env api token files auth events r :
  truthy (nth 0 files VUndefined) = true ->
  truthy token = true ->
  api (Request "POST" (base env +:+ "/upload-proposal")
         (VObj [("file", nth 0 files VUndefined)]) (Some (bearer token)))
  = Fulfilled r ->
  let vs := progress_values (run (Upload_onDrop env api token files auth events)) in
  hd_error vs = Some 0%Z
  /\ last vs = Some 100%Z
  /\ (2 <= length vs)%nat.
Proof.
  intros Hfile Htok Hapi. cbn zeta.
  rewrite (upload_success_progress_values _ _ _ _ _ _ _ Hfile Htok Hapi).
  split; [reflexivity|]. split.
  - change (0%Z :: (progress_values (while_uploading events 0 true) ++ [100%Z])%list)
      with (([0%Z] ++ progress_values (while_uploading events 0 true)) ++ [100%Z])%list.
    apply last_snoc.
  - cbn [length]. rewrite length_app. cbn. lia.
Qed.

Lemma upload_progress_first_and_last_witness :
  let vs := progress_values
              (run (Upload_onDrop None Sample.stored (VStr "jwt-0") [Sample.a_file]
                      (Some "Bearer jwt-0") Sample.fast_upload)) in
  hd_error vs = Some 0%Z /\ last vs = Some 100%Z /\ (2 <= length vs)%nat.
Proof.
  apply (upload_progress_first_and_last None Sample.stored (VStr "jwt-0")
           [Sample.a_file] (Some "Bearer jwt-0") Sample.fast_upload
           (Sample.reply 200 (VObj [("proposal_id", VNum 7)]))).
  - reflexivity.
  - reflexivity.
  - reflexivity.
Defined.

(** X19.  When only the 200 ms timer fires during a successful upload (no
    transport progress event), the values assigned to the progress are
    non-decreasing, all but the last lie between 0 and 90, and the last is
    100, however many times the timer fires. *)
Theorem upload_progress_with_timer_only env api token files auth n r :
  truthy (nth 0 files VUndefined) = true ->
  truthy token = true ->
  api (Request "POST" (base env +:+ "/upload-proposal")
         (VObj [("file", nth 0 files VUndefined)]) (Some (bearer token)))
  = Fulfilled r ->
  exists before,
    progress_values
      (run (Upload_onDrop env api token files auth (replicate n Tick)))
    = (before ++ [100%Z])%list
    /\ Forall (fun v => (0 <= v <= 90)%Z) before
    /\ non_decreasing (before ++ [100%Z]) = true.
Proof.
  intros Hfile Htok Hapi.
  rewrite (upload_success_progress_values _ _ _ _ _ _ _ Hfile Htok Hapi).
  destruct (timer_alone_is_monotone n true 0%Z eq_refl ltac:(lia)) as [Hall Hmono].
  cbn zeta in Hall, Hmono.
  exists (0%Z :: progress_values (while_uploading (replicate n Tick) 0 true)).
  split; [reflexivity|]. split.
  - constructor; [lia|exact Hall].
  - apply non_decreasing_snoc; [exact Hmono|].
    constructor; [lia|]. eapply Forall_impl; [exact Hall|]. cbn. intros; lia.
Qed.

Lemma upload_progress_with_timer_only_witness :
  exists before,
    progress_values
      (run (Upload_onDrop None Sample.stored (VStr "jwt-0") [Sample.a_file]
              (Some "Bearer jwt-0") (replicate 12 Tick)))
    = (before ++ [100%Z])%list
    /\ Forall (fun v => (0 <= v <= 90)%Z) before
    /\ non_decreasing (before ++ [100%Z]) = true.
Proof.
  apply (upload_progress_with_timer_only None Sample.stored (VStr "jwt-0")
           [Sample.a_file] (Some "Bearer jwt-0") 12
           (Sample.reply 200 (VObj [("proposal_id", VNum 7)]))).
  - reflexivity.
  - reflexivity.
  - reflexivity.
Defined.

(** ** The actions offered for a proposal *)

(** X21.  On a Dashboard card the Funding action is enabled exactly when the
    status chip has the colour of 'completed' (success) or of 'analyzed'
    (info). *)
Theorem funding_follows_status_colour p c :
  render_card p = Some c ->
  (funding_disabled c = false
   <-> status_color c = "success" \/ status_color c = "info").
Proof.
  unfold render_card. destruct (nullish p); [discriminate|].
  intros H. injection H as <-. cbn [funding_disabled status_color].
  unfold getStatusColor.
  destruct (strict_eq_str (field p "status") "completed") eqn:Hc;
    destruct (strict_eq_str (field p "status") "analyzed") eqn:Ha;
    destruct (strict_eq_str (field p "status") "processing") eqn:Hp; cbn;
    split; intros H; try reflexivity; try discriminate H; auto;
    destruct H as [H|H]; discriminate H.
Qed.

Lemma funding_follows_status_colour_witness :
  exists c,
    render_card (Sample.proposal_with 3 "completed") = Some c
    /\ status_color c = "success"
    /\ funding_disabled c = false.
Proof.
  eexists. split; [reflexivity|]. split; [reflexivity|].
  apply (funding_follows_status_colour (Sample.proposal_with 3 "completed") _ eq_refl).
  left. reflexivity.
Defined.

(** X22.  When the Analysis page shows a proposal, exactly one of "Analyze
    Proposal" and "View Funding Recommendations" is offered, and Download
    is never disabled.  Whenever the page offers funding, the Dashboard
    card of the same proposal has Funding enabled; for a 'completed'
    proposal the Dashboard enables Funding although the page does not
    offer it. *)
Theorem analysis_page_actions loading proposal analyzing a :
  AnalysisPage.render loading proposal analyzing = AnalysisPage.Page a ->
  AnalysisPage.analyze_shown a = negb (AnalysisPage.funding_shown a)
  /\ AnalysisPage.download_disabled a = false
  /\ (AnalysisPage.funding_shown a = true ->
      forall c, render_card proposal = Some c -> funding_disabled c = false)
  /\ (field proposal "status" = VStr "completed" ->
      AnalysisPage.funding_shown a = false
      /\ forall c, render_card proposal = Some c -> funding_disabled c = false).
Proof.
  unfold AnalysisPage.render. destruct loading; [discriminate|].
  destruct (truthy proposal) eqn:Hp; cbn [negb]; [|discriminate].
  intros H. injection H as <-. cbn.
  split; [reflexivity|]. split; [reflexivity|]. split.
  - intros Hf c Hc. apply (render_card_funding proposal c Hc).
    left. apply strict_eq_str_true, Hf.
  - intros Hs. rewrite Hs. split; [reflexivity|].
    intros c Hc. apply (render_card_funding proposal c Hc). right. exact Hs.
Qed.

Lemma analysis_page_actions_witness :
  exists a,
    AnalysisPage.render false (Sample.proposal_with 3 "completed") false
    = AnalysisPage.Page a
    /\ AnalysisPage.analyze_shown a = negb (AnalysisPage.funding_shown a).
Proof.
  eexists. split; [reflexivity|].
  apply (analysis_page_actions false (Sample.proposal_with 3 "completed") false).
  reflexivity.
Defined.

(** ** The steps of the plan generator *)

Lemma truthy_str_nonempty v : truthy (VStr v) = true <-> v <> "".
Proof.
  cbn. destruct (String.eqb_spec v ""); split; intros H;
    try reflexivity; try discriminate H; try contradiction; assumption.
Qed.

Lemma existsb_eqb_In v l : existsb (String.eqb v) l = true -> In v l.
Proof.
  intros H. apply existsb_exists in H as (x & Hx & He).
  apply String.eqb_eq in He. subst. exact Hx.
Qed.

Lemma truthy_and_then a b :
  truthy (Wizard.and_then a b) = truthy a && truthy b.
Proof. unfold Wizard.and_then. destruct (truthy a) eqn:Ha; [reflexivity|exact Ha]. Qed.

Ltac wf_close H1 H2 :=
  repeat split; intros; try lia; auto;
  try (apply H1; lia); try (apply H2; lia).

Lemma fire_well_formed ev st st' :
  Wizard.well_formed st -> Wizard.fire ev st = Some st' -> Wizard.well_formed st'.
Proof.
  intros (a & b & c & d & e & Hf & Hstep & Ha & Hb & H1 & H2) Hfire.
  destruct st as [step busy fd]. cbn in Hf, Hstep, H1, H2. subst fd.
  assert (step = 0 \/ step = 1 \/ step = 2)%Z as Hcase by lia.
  destruct ev.
  - (* Change *)
    unfold Wizard.fire in Hfire. cbn [Wizard.activeStep] in Hfire.
    destruct (Wizard.input_offers step name v) eqn:Hoffer; [|discriminate Hfire].
    injection Hfire as <-. unfold Wizard.input_offers in Hoffer.
    destruct Hcase as [->|[->| ->]]; [| |discriminate Hoffer].
    + apply orb_true_iff in Hoffer as [Hoffer|Hn];
        [apply orb_true_iff in Hoffer as [Hoffer|Hoffer];
         apply andb_true_iff in Hoffer as [Hn Hv]|];
        apply String.eqb_eq in Hn; subst name.
      * exists v, b, c, d, e. cbn.
        wf_close H1 H2. right. exact (existsb_eqb_In _ _ Hv).
      * exists a, v, c, d, e. cbn.
        wf_close H1 H2. right. exact (existsb_eqb_In _ _ Hv).
      * exists a, b, c, d, v. cbn. wf_close H1 H2.
    + apply orb_true_iff in Hoffer as [Hn|Hn];
        apply String.eqb_eq in Hn; subst name.
      * exists a, b, v, d, e. cbn.
        wf_close H1 H2.
      * exists a, b, c, v, e. cbn.
        wf_close H1 H2.
  - (* Back *)
    cbn in Hfire. unfold Wizard.back_disabled in Hfire. cbn in Hfire.
    destruct (Z.eqb_spec step 0); [discriminate Hfire|].
    injection Hfire as <-. exists a, b, c, d, e. cbn.
    wf_close H1 H2.
  - (* Next *)
    cbn in Hfire.
    unfold Wizard.on_last_step, Wizard.next_disabled, Wizard.isStepValid in Hfire.
    cbn [Wizard.activeStep Wizard.formData] in Hfire.
    change (Z.of_nat (length Wizard.steps) - 1)%Z with 2%Z in Hfire.
    destruct Hcase as [->|[->| ->]]; [| |discriminate Hfire];
      cbn [Z.eqb orb assoc String.eqb Ascii.eqb Bool.eqb] in Hfire;
      rewrite !truthy_and_then in Hfire.
    + destruct (truthy (VStr a)) eqn:Ta; [|discriminate Hfire].
      destruct (truthy (VStr b)) eqn:Tb; [|discriminate Hfire].
      destruct (truthy (VStr e)) eqn:Te; [|discriminate Hfire].
      cbn in Hfire. injection Hfire as <-. exists a, b, c, d, e. cbn.
      apply truthy_str_nonempty in Ta, Tb, Te.
      wf_close H1 H2.
    + destruct (truthy (VStr c)) eqn:Tc; [|discriminate Hfire].
      destruct (truthy (VStr d)) eqn:Td; [|discriminate Hfire].
      cbn in Hfire. injection Hfire as <-. exists a, b, c, d, e. cbn.
      apply truthy_str_nonempty in Tc, Td.
      wf_close H1 H2.
  - (* Submit starts *)
    cbn in Hfire. destruct (Wizard.on_last_step _ && _); [|discriminate Hfire].
    injection Hfire as <-. exists a, b, c, d, e. cbn. wf_close H1 H2.
  - (* Submit settles *)
    cbn in Hfire. destruct busy; [|discriminate Hfire].
    injection Hfire as <-. exists a, b, c, d, e. cbn. wf_close H1 H2.
Qed.

Lemma initial_well_formed : Wizard.well_formed Wizard.initial.
Proof.
  exists "", "", "", "", "". cbn. repeat split; auto; lia.
Qed.

Lemma fire_all_well_formed evs st st' :
  Wizard.well_formed st -> Wizard.fire_all evs st = Some st' -> Wizard.well_formed st'.
Proof.
  revert st. induction evs as [|ev evs IH]; intros st Hst Hrun; cbn in Hrun.
  - injection Hrun as <-. exact Hst.
  - destruct (Wizard.fire ev st) as [st1|] eqn:Hfire; [|discriminate Hrun].
    eapply IH; [|exact Hrun]. eapply fire_well_formed; eassumption.
Qed.

(** X23.  Whatever the user does with the plan generator (change the inputs of
    the current step, Next, Back, Submit), when Submit can be clicked all
    five fields of the form are non-empty strings and the business type and
    the industry are among the offered items.  That form is what
    [handleSubmit] posts: its run depends on the backend only through the
    answer to the POST of this form to [/generate-business-plan] with the
    bearer token, and with a truthy token a fulfilled answer to that
    request gives the success notification. *)
Theorem submitted_form_is_complete evs st st' :
  Wizard.fire_all evs Wizard.initial = Some st ->
  Wizard.fire Wizard.ClickSubmit st = Some st' ->
  Wizard.complete (Wizard.formData st)
  /\ (exists t, assoc "business_type" (Wizard.formData st) = VStr t
                /\ In t Wizard.businessTypes)
  /\ (exists t, assoc "industry" (Wizard.formData st) = VStr t
                /\ In t Wizard.industries)
  /\ Wizard.formData st' = Wizard.formData st
  /\ (forall env api api' token,
         api (Request "POST" (base env +:+ "/generate-business-plan")
                (VObj (Wizard.formData st)) (Some (bearer token)))
         = api' (Request "POST" (base env +:+ "/generate-business-plan")
                   (VObj (Wizard.formData st)) (Some (bearer token))) ->
         Wizard.handleSubmit env api token st = Wizard.handleSubmit env api' token st)
  /\ (forall env api token r,
         truthy token = true ->
         api (Request "POST" (base env +:+ "/generate-business-plan")
                (VObj (Wizard.formData st)) (Some (bearer token)))
         = Fulfilled r ->
         In (ToastSuccess "Business plan generated successfully!")
           (run (Wizard.handleSubmit env api token st))).
Proof.
  intros Hrun Hsubmit.
  destruct (fire_all_well_formed evs _ _ initial_well_formed Hrun)
    as (a & b & c & d & e & Hf & Hstep & Ha & Hb & H1 & H2).
  cbn in Hsubmit. unfold Wizard.on_last_step in Hsubmit.
  destruct (Z.eqb_spec (Wizard.activeStep st) (Z.of_nat (length Wizard.steps) - 1))
    as [Hlast|]; [|discriminate Hsubmit].
  cbn in Hlast.
  destruct (negb (Wizard.submit_disabled st)); [|discriminate Hsubmit].
  injection Hsubmit as <-.
  destruct H1 as (Ha' & Hb' & He'); [lia|]. destruct H2 as (Hc' & Hd'); [lia|].
  split; [|split; [|split; [|split; [|split]]]].
  - rewrite Hf. intros name Hin. cbn in Hin.
    destruct Hin as [<-|[<-|[<-|[<-|[<-|[]]]]]]; cbn; eauto.
  - rewrite Hf. exists a. split; [reflexivity|].
    destruct Ha; [contradiction|assumption].
  - rewrite Hf. exists b. split; [reflexivity|].
    destruct Hb; [contradiction|assumption].
  - reflexivity.
  - intros env api api' token Hsame.
    unfold Wizard.handleSubmit, Generator_handleSubmit, axios_post.
    rewrite Hsame. reflexivity.
  - intros env api token r Htok Hapi.
    unfold Wizard.handleSubmit, Generator_handleSubmit, axios_post.
    rewrite Htok. cbn [negb]. rewrite Hapi.
    cbn. unfold member. destruct (nullish (data r)); cbn;
      repeat (first [left; reflexivity | right]).
Qed.

Lemma submitted_form_is_complete_witness :
  exists st st',
    Wizard.fire_all
      [Wizard.Change "business_type" "Startup"; Wizard.Change "industry" "Retail";
       Wizard.Change "business_description" "A corner shop"; Wizard.ClickNext;
       Wizard.Change "target_market" "Neighbours";
       Wizard.Change "funding_requirements" "R500,000"; Wizard.ClickNext]
      Wizard.initial = Some st
    /\ Wizard.fire Wizard.ClickSubmit st = Some st'
    /\ Wizard.complete (Wizard.formData st).
Proof.
  eexists _, _. split; [reflexivity|]. split; [reflexivity|].
  eapply (submitted_form_is_complete
            [Wizard.Change "business_type" "Startup"; Wizard.Change "industry" "Retail";
             Wizard.Change "business_description" "A corner shop"; Wizard.ClickNext;
             Wizard.Change "target_market" "Neighbours";
             Wizard.Change "funding_requirements" "R500,000"; Wizard.ClickNext]).
  - reflexivity.
  - reflexivity.
Defined.




(** X17.  An upload that sends its request and does not expire the session leaves
    the shared client's default [Authorization] header set to ["Bearer "]
    plus the view's token, on success and on failure; token, user and
    cookies of the session are untouched. *)
Theorem upload_sets_default_header env api token files auth events s :
  truthy (nth 0 files VUndefined) = true ->
  truthy token = true ->
  (forall r,
      api (Request "POST" (base env +:+ "/upload-proposal")
             (VObj [("file", nth 0 files VUndefined)]) (Some (bearer token)))
      = Rejected (AxiosError (Some r)) ->
      expires UploadOnDrop r = false) ->
  let s' := Shell.session_after
              (run (Upload_onDrop env api token files auth events)) s in
  Auth.default_headers s' !! "Authorization" = Some ("Bearer " +:+ to_string token)
  /\ Auth.token s' = Auth.token s
  /\ Auth.user s' = Auth.user s
  /\ Auth.cookies s' = Auth.cookies s.
Proof.
  intros Hfile Htok Hno. cbn zeta. unfold Upload_onDrop, axios_post.
  rewrite Hfile, Htok. cbn [negb].
  destruct (api _) as [r|e] eqn:Hapi; cbn.
  - rewrite session_after_app, session_after_while_uploading. cbn.
    repeat split. apply lookup_insert_eq.
  - assert (strict_eq_num (exn_status e) 401
            && strict_eq_str (exn_data_error e) "invalid_token" = false) as ->.
    { destruct e as [[r|]|m|m]; try reflexivity. exact (Hno r eq_refl). }
    cbn. rewrite !session_after_app, session_after_while_uploading. cbn.
    repeat split. apply lookup_insert_eq.
Qed.

Lemma upload_sets_default_header_witness :
  Auth.default_headers
    (Shell.session_after
       (run (Upload_onDrop None Sample.stored (VStr "jwt-9") [Sample.a_file]
               (Some "Bearer jwt-0") Sample.fast_upload))
       Sample.signed_in)
  !! "Authorization" = Some "Bearer jwt-9".
Proof.
  apply (upload_sets_default_header None Sample.stored (VStr "jwt-9") [Sample.a_file]
           (Some "Bearer jwt-0") Sample.fast_upload Sample.signed_in).
  - reflexivity.
  - reflexivity.
  - intros r H. discriminate H.
Defined.

(** ** Rendering the proposal list *)

Lemma render_card_is_Some p : is_Some (render_card p) <-> nullish p = false.
Proof.
  unfold render_card. destruct (nullish p); split; intros H;
    try reflexivity; try discriminate H; eauto.
  destruct H as [c H]. discriminate H.
Qed.

Lemma not_all_non_null (l : list value) :
  ~ Forall (fun p => nullish p = false) l <-> Exists (fun p => nullish p = true) l.
Proof.
  induction l as [|p l IH].
  - split; [intros H; destruct H; constructor | intros H; inversion H].
  - rewrite Forall_cons, Exists_cons, <- IH.
    destruct (nullish p); split.
    + intros _. left. reflexivity.
    + intros _ [H _]. discriminate H.
    + intros H. right. intros Hl. apply H. split; [reflexivity|exact Hl].
    + intros [H|H] [_ Hl]; [discriminate H|contradiction].
Qed.

(** X20.  When some element of the list of proposals is null or undefined,
    evaluating the Dashboard's grid throws (a property of that element is
    read).  When the grid is produced, there is one card per proposal, in
    the order of the list, keyed by the proposal's [id], and no element of
    the list is null or undefined. *)
Theorem dashboard_null_proposal_throws (proposals : list value) :
  (Exists (fun p => nullish p = true) proposals ->
   Dashboard_render false (VArr proposals) = None)
  /\ (forall cards,
         Dashboard_render false (VArr proposals) = Some (Cards cards) ->
         length cards = length proposals
         /\ map card_key cards = map (fun p => field p "id") proposals
         /\ Forall (fun p => nullish p = false) proposals).
Proof.
  unfold Dashboard_render. split.
  - intros Hex. destruct proposals as [|p ps]; [inversion Hex|].
    revert Hex. generalize (p :: ps). clear p ps. intros l Hex.
    rewrite fmap_None, eq_None_not_Some, mapM_is_Some.
    apply not_all_non_null in Hex. intros Hall. apply Hex.
    eapply Forall_impl; [exact Hall|].
    intros x Hx. apply render_card_is_Some. exact Hx.
  - intros cards H. destruct proposals as [|p ps]; [discriminate H|].
    revert H. generalize (p :: ps). clear p ps. intros l H.
    apply fmap_Some in H as (cs & Hm & Hc). injection Hc as ->.
    apply mapM_Some in Hm.
    induction Hm as [|q c l cs Hqc _ IH]; [repeat split; constructor|].
    destruct IH as (Hlen & Hkeys & Hall). cbn. rewrite Hlen, Hkeys.
    unfold render_card in Hqc. destruct (nullish q) eqn:Hq; [discriminate|].
    injection Hqc as <-. repeat split. constructor; assumption.
Qed.

Lemma dashboard_null_proposal_throws_witness :
  Dashboard_render false (VArr [Sample.proposal_with 1 "analyzed"; VNull]) = None.
Proof.
  apply (proj1 (dashboard_null_proposal_throws
                  [Sample.proposal_with 1 "analyzed"; VNull])).
  right. left. reflexivity.
Defined.

Lemma logout_only_on_401_witness :
  exists r,
    Sample.expired
      (request_of None (VStr "jwt-0") Sample.parse_seven DashboardFetchProposals
         Sample.some_inputs)
    = Rejected (AxiosError (Some r))
    /\ status r = VNum 401
    /\ expires DashboardFetchProposals r = true.
Proof.
  apply (logout_only_on_401 None Sample.expired (VStr "jwt-0") Sample.parse_seven
           Sample.no_filename DashboardFetchProposals Sample.some_inputs).
  cbn. right. right. left. reflexivity.
Defined.
